(** * stonks: indicator engine and crossover alert of the Discord bot

    The repository holds two variants of one bot: the alerting bot
    (scheduled job, [getAssetData], [!setalertchannel], [!stonks <symbol>])
    and the earlier [bot.js] ([getMarketData], [!stonks]).  Both share
    [calculateRSI] verbatim.

    The handlers, the scheduled job and their effects are modelled over
    [num]: exact rationals extended with [Infinity], [-Infinity] and [NaN].
    The control flow of the program that depends on these special values
    (the [avgLoss === 0 ? Infinity : ...] guard, [x / 0], the lookup of a
    missing array slot) is kept; rounding, overflow and the sign of zero of
    binary64 are idealised away there.

    What the program computes as numbers is stated on [Binary64]: the
    indicator code ([calculateRSI], the filter, the averages) over the
    primitive binary64 floats, with the rounding and overflow of the
    JavaScript operations. *)

From Stdlib Require Import QArith Qabs Lqa List Bool String Arith Lia.
From Stdlib Require PrimFloat FloatOps SpecFloat Uint63.
Import ListNotations.
Local Open Scope Q_scope.

(** ** JavaScript numbers, without rounding

    Exact arithmetic with the special values: what the handlers and the
    scheduled job do with numbers is to compare them and to branch.  The
    values themselves, as binary64 computes them, are the subject of
    [Binary64] below. *)

Module JsNum.

Inductive num : Type :=
| Fin (q : Q)
| PInf
| NInf
| NaN.

Definition ofNat (n : nat) : num := Fin (inject_Z (Z.of_nat n)).

(** [a + b] *)
Definition add (a b : num) : num :=
  match a, b with
  | NaN, _ | _, NaN => NaN
  | Fin x, Fin y => Fin (x + y)
  | PInf, NInf | NInf, PInf => NaN
  | PInf, _ | _, PInf => PInf
  | NInf, _ | _, NInf => NInf
  end.

(** [-a] *)
Definition neg (a : num) : num :=
  match a with
  | Fin x => Fin (- x)
  | PInf => NInf
  | NInf => PInf
  | NaN => NaN
  end.

(** [a - b] *)
Definition sub (a b : num) : num := add a (neg b).

(** [Math.abs(a)] *)
Definition abs (a : num) : num :=
  match a with
  | Fin x => Fin (Qabs x)
  | PInf | NInf => PInf
  | NaN => NaN
  end.

(** [a / b]; a finite number divided by zero is an infinity of the sign
    of the numerator, [0 / 0] is [NaN]. *)
Definition div (a b : num) : num :=
  match a, b with
  | NaN, _ | _, NaN => NaN
  | Fin x, Fin y =>
      if Qeq_bool y 0 then
        if Qeq_bool x 0 then NaN
        else if Qle_bool 0 x then PInf else NInf
      else Fin (x / y)
  | Fin _, PInf | Fin _, NInf => Fin 0
  | PInf, Fin y => if Qle_bool 0 y then PInf else NInf
  | NInf, Fin y => if Qle_bool 0 y then NInf else PInf
  | _, _ => NaN
  end.

(** [a * b] *)
Definition mul (a b : num) : num :=
  match a, b with
  | NaN, _ | _, NaN => NaN
  | Fin x, Fin y => Fin (x * y)
  | PInf, Fin y | Fin y, PInf =>
      if Qeq_bool y 0 then NaN else if Qle_bool 0 y then PInf else NInf
  | NInf, Fin y | Fin y, NInf =>
      if Qeq_bool y 0 then NaN else if Qle_bool 0 y then NInf else PInf
  | PInf, PInf | NInf, NInf => PInf
  | PInf, NInf | NInf, PInf => NInf
  end.

(** [a > b] *)
Definition gt (a b : num) : bool :=
  match a, b with
  | Fin x, Fin y => negb (Qle_bool x y)
  | PInf, Fin _ | PInf, NInf | Fin _, NInf => true
  | _, _ => false
  end.

(** [a >= b] *)
Definition ge (a b : num) : bool :=
  match a, b with
  | Fin x, Fin y => Qle_bool y x
  | PInf, Fin _ | PInf, NInf | Fin _, NInf => true
  | PInf, PInf | NInf, NInf => true
  | _, _ => false
  end.

(** [a < b] and [a <= b] *)
Definition lt (a b : num) : bool := gt b a.
Definition le (a b : num) : bool := ge b a.

(** [a === b] on numbers *)
Definition strictEq (a b : num) : bool :=
  match a, b with
  | Fin x, Fin y => Qeq_bool x y
  | PInf, PInf | NInf, NInf => true
  | _, _ => false
  end.

(** Truthiness of a number: [0] and [NaN] are falsy. *)
Definition truthy (a : num) : bool :=
  match a with
  | Fin x => negb (Qeq_bool x 0)
  | PInf | NInf => true
  | NaN => false
  end.

End JsNum.

Import JsNum.

(** ** [calculateRSI] (identical in both source files) *)

(** [closes[i]]: a slot past the end of the array is [undefined], which
    arithmetic turns into [NaN]. *)
Definition at_index (closes : list num) (i : nat) : num := nth i closes NaN.

(** The body of [for (let i = 1; i <= period; i++)], run [steps] more times
    from index [i] with the accumulators [gains] and [losses]. *)
Fixpoint rsiLoop (closes : list num) (steps i : nat) (gains losses : num)
  : num * num :=
  match steps with
  | O => (gains, losses)
  | S steps' =>
      let difference := sub (at_index closes (i - 1)) (at_index closes i) in
      if gt difference (Fin 0)
      then rsiLoop closes steps' (S i) (add gains difference) losses
      else rsiLoop closes steps' (S i) gains (add losses (abs difference))
  end.

Definition calculateRSI (closes : list num) (period : nat) : num :=
  let '(gains, losses) := rsiLoop closes period 1 (Fin 0) (Fin 0) in
  let avgGain := div gains (ofNat period) in
  let avgLoss := div losses (ofNat period) in
  let rs := if strictEq avgLoss (Fin 0) then PInf else div avgGain avgLoss in
  sub (Fin 100) (div (Fin 100) (add (Fin 1) rs)).

(** The quantities of the specification, over exact rationals: the sum of
    the positive look-back differences [closes[i-1] - closes[i]] and the sum
    of the absolute values of the negative ones, for [i = 1 .. P]. *)
Definition lookback (c : list Q) (i : nat) : Q :=
  nth (i - 1) c 0 - nth i c 0.

Definition positivePart (d : Q) : Q := if Qlt_le_dec 0 d then d else 0.
Definition negativeAbs (d : Q) : Q := if Qlt_le_dec d 0 then Qabs d else 0.

Fixpoint specGains (c : list Q) (P : nat) : Q :=
  match P with
  | O => 0
  | S k => specGains c k + positivePart (lookback c (S k))
  end.

Fixpoint specLosses (c : list Q) (P : nat) : Q :=
  match P with
  | O => 0
  | S k => specLosses c k + negativeAbs (lookback c (S k))
  end.

Definition specAvgGain (c : list Q) (P : nat) : Q :=
  specGains c P / inject_Z (Z.of_nat P).
Definition specAvgLoss (c : list Q) (P : nat) : Q :=
  specLosses c P / inject_Z (Z.of_nat P).

(** ** Data of the provider and of the bot *)

(** One entry of [result.quotes]: the provider gives a finite number or
    [null] as [close]. *)
Record Quote : Type := mkQuote { date : nat; close : option Q }.

(** [q => q.close] used as a filter predicate: the truthiness of the field,
    so [null] is dropped, and so is the number [0]. *)
Definition closeTruthy (q : Quote) : bool :=
  match close q with
  | Some x => truthy (Fin x)
  | None => false
  end.

(** [q => q.close] used as a mapper.  A [null] would count as [0] in the
    sums; none is left after the filter. *)
Definition closeValue (q : Quote) : num :=
  match close q with
  | Some x => Fin x
  | None => Fin 0
  end.

(** [result.quotes.filter(q => q.close).map(q => q.close).reverse()] *)
Definition latestFirst (quotes : list Quote) : list num :=
  rev (map closeValue (filter closeTruthy quotes)).

(** [xs.slice(0, n)] and [xs.reduce((a, b) => a + b, 0)] *)
Definition slice0 (n : nat) (xs : list num) : list num := firstn n xs.
Definition sum (xs : list num) : num := fold_left add xs (Fin 0).

(** [quotes.length >= n ? calculateRSI(quotes.slice(0, n), p) : null] *)
Definition rsiIfEnough (quotes : list num) (n p : nat) : option num :=
  if (n <=? List.length quotes)%nat
  then Some (calculateRSI (slice0 n quotes) p)
  else None.

(** An awaited call of an outside service either returns or throws. *)
Inductive Outcome (A : Type) : Type :=
| Returns (a : A)
| Throws.
Arguments Returns {A} a.
Arguments Throws {A}.

Record QuoteSummary : Type :=
  mkQuoteSummary { longName : option string; shortName : option string }.

(** The object [yahooFinance.chart] resolves to; [quotes] may be missing. *)
Record ChartResult : Type := mkChartResult { quotes : option (list Quote) }.

(** [a || b] on strings: the empty string is falsy. *)
Definition orElse (a : option string) (b : string) : string :=
  match a with
  | Some s => if String.eqb s EmptyString then b else s
  | None => b
  end.

Inductive Status : Type := above | below.

Definition Status_eqb (a b : Status) : bool :=
  match a, b with
  | above, above | below, below => true
  | _, _ => false
  end.

(** The global [marketData], also the content of [market-data.json]. *)
Record MarketData : Type :=
  mkMarketData { lastStatus : option Status; alertChannel : option string }.

Definition initialMarketData : MarketData := mkMarketData None None.

(** Text produced by [n.toFixed(digits)], kept symbolic. *)
Inductive Text : Type :=
| Fixed (digits : nat) (n : num)
| Literal (s : string).

Inductive Direction : Type := BullishCrossover | BearishCrossover.
Inductive Crossover : Type := GoldenCross | DeathCross.

(** The lines of the alert message. *)
Record AlertMessage : Type := mkAlertMessage {
  direction : Direction;
  closedSide : Status;
  closePrice : Text;
  ma200Price : Text;
  crossoverType : Crossover
}.

Inductive LogLine : Type :=
| ScheduledJobError
| DataError (symbol : string)
| MarketDataError
| CommandError.

(** ** The world the bot runs in

    [Env] fixes what the outside answers during one run: the provider, the
    chat platform and whether [fs.writeFileSync] succeeds.  [World] is what
    the bot changes: the global [marketData], the file, the messages sent
    and the console. *)
Record Env : Type := mkEnv {
  quoteOf : string -> Outcome (option QuoteSummary);
  chartOf : string -> Outcome (option ChartResult);
  channelOf : string -> Outcome (option string);
  writeSucceeds : bool
}.

Record World : Type := mkWorld {
  marketData : MarketData;
  dataFile : option MarketData;
  outbox : list (string * AlertMessage);
  console : list LogLine
}.

(** A computation returns or throws, and keeps every change made to the
    world before a throw, as JavaScript does. *)
Inductive Result (A : Type) : Type :=
| Ok (a : A)
| Raised.
Arguments Ok {A} a.
Arguments Raised {A}.

Definition M (A : Type) : Type := Env -> World -> Result A * World.

Definition ret {A} (a : A) : M A := fun _ w => (Ok a, w).

Definition bind {A B} (m : M A) (k : A -> M B) : M B :=
  fun e w =>
    match m e w with
    | (Ok a, w') => k a e w'
    | (Raised, w') => (Raised, w')
    end.

(** [try { body } catch (error) { handler }] *)
Definition tryCatch {A} (body handler : M A) : M A :=
  fun e w =>
    match body e w with
    | (Ok a, w') => (Ok a, w')
    | (Raised, w') => handler e w'
    end.

Definition await {A} (ask : Env -> Outcome A) : M A :=
  fun e w =>
    match ask e with
    | Returns a => (Ok a, w)
    | Throws => (Raised, w)
    end.

Declare Scope js_scope.
Delimit Scope js_scope with js.
Notation "x <- m ;; k" := (bind m (fun x => k))
  (at level 61, m at next level, right associativity) : js_scope.
Notation "m ;;; k" := (bind m (fun _ => k))
  (at level 61, right associativity) : js_scope.

Local Open Scope js_scope.
Local Open Scope string_scope.
Local Open Scope list_scope.

Definition updWorld (f : MarketData -> MarketData) (w : World) : World :=
  mkWorld (f (marketData w)) (dataFile w) (outbox w) (console w).

Definition readMarketData : M MarketData := fun _ w => (Ok (marketData w), w).

(** [marketData.lastStatus = s] and [marketData.alertChannel = id] *)
Definition setLastStatus (s : Status) : M unit :=
  fun _ w =>
    (Ok tt, updWorld (fun md => mkMarketData (Some s) (alertChannel md)) w).
Definition setAlertChannel (id : string) : M unit :=
  fun _ w =>
    (Ok tt, updWorld (fun md => mkMarketData (lastStatus md) (Some id)) w).

Definition consoleError (l : LogLine) : M unit :=
  fun _ w =>
    (Ok tt, mkWorld (marketData w) (dataFile w) (outbox w) (console w ++ [l])).

(** [channel.send(message)]; the promise it returns is not awaited. *)
Definition channelSend (channel : string) (message : AlertMessage) : M unit :=
  fun _ w =>
    (Ok tt,
     mkWorld (marketData w) (dataFile w) (outbox w ++ [(channel, message)])
       (console w)).

(** [fs.writeFileSync(DATA_PATH, JSON.stringify(marketData, null, 2))]: the
    whole record replaces the file, or the call throws and the file keeps
    its content. *)
Definition saveMarketData : M unit :=
  fun e w =>
    if writeSucceeds e
    then (Ok tt,
          mkWorld (marketData w) (Some (marketData w)) (outbox w) (console w))
    else (Raised, w).

(** Start of the process: [marketData] is read from the file if it exists. *)
Definition loadMarketData (file : option MarketData) : MarketData :=
  match file with
  | Some md => md
  | None => initialMarketData
  end.

(** ** The alerting bot *)

Record AssetData : Type := mkAssetData {
  name : string;
  symbol : string;
  currentPrice : num;
  ma50 : num;
  ma200 : num;
  rsi5 : option num;
  rsi14 : option num
}.

(** [result?.quotes] *)
Definition quotesOf (result : option ChartResult) : option (list Quote) :=
  match result with
  | Some r => quotes r
  | None => None
  end.

Definition getAssetData (symbol : string) : M (option AssetData) :=
  tryCatch
    (quote <- await (fun e => quoteOf e symbol) ;;
     match quote with
     | None => ret None
     | Some quote =>
         let name := orElse (longName quote) (orElse (shortName quote) symbol) in
         result <- await (fun e => chartOf e symbol) ;;
         match quotesOf result with
         | None => ret None
         | Some raw =>
             if (List.length raw <? 200)%nat then ret None
             else
               let quotes := latestFirst raw in
               if (List.length quotes <? 200)%nat then ret None
               else
                 let currentPrice := at_index quotes 0 in
                 let ma50 := div (sum (slice0 50 quotes)) (Fin 50) in
                 let ma200 := div (sum (slice0 200 quotes)) (Fin 200) in
                 let rsi5 := rsiIfEnough quotes 6 5 in
                 let rsi14 := rsiIfEnough quotes 15 14 in
                 ret (Some (mkAssetData name symbol currentPrice ma50 ma200
                              rsi5 rsi14))
         end
     end)
    (consoleError (DataError symbol) ;;; ret None).

Definition statusOf (price ma : num) : Status :=
  if gt price ma then above else below.

Definition alertMessage (currentStatus : Status) (data : AssetData)
  : AlertMessage :=
  mkAlertMessage
    (match currentStatus with
     | above => BullishCrossover
     | below => BearishCrossover
     end)
    currentStatus
    (Fixed 2 (currentPrice data))
    (Fixed 2 (ma200 data))
    (match currentStatus with
     | above => GoldenCross
     | below => DeathCross
     end).

(** Lines 51-67 of the callback: classify, alert on a change of side,
    record the side, save. *)
Definition evaluate (channel : string) (data : AssetData) : M unit :=
  let currentStatus := statusOf (currentPrice data) (ma200 data) in
  md <- readMarketData ;;
  (match lastStatus md with
   | Some last =>
       if negb (Status_eqb last currentStatus)
       then channelSend channel (alertMessage currentStatus data)
       else ret tt
   | None => ret tt
   end) ;;;
  setLastStatus currentStatus ;;;
  saveMarketData.

(** The callback given to [schedule.scheduleJob]. *)
Definition scheduledJob : M unit :=
  md <- readMarketData ;;
  match alertChannel md with
  | None => ret tt
  | Some id =>
      if String.eqb id EmptyString then ret tt
      else
        channel <- await (fun e => channelOf e id) ;;
        match channel with
        | None => ret tt
        | Some channel =>
            tryCatch
              (data <- getAssetData "^GSPC" ;;
               match data with
               | None => ret tt
               | Some data => evaluate channel data
               end)
              (consoleError ScheduledJobError)
        end
  end.

(** *** The [messageCreate] handler *)

Inductive RsiStatus : Type := Overbought | Oversold | Neutral.

(** [null] takes part in [>=] and [<=] as the number [0]. *)
Definition toNumber (v : option num) : num :=
  match v with
  | Some n => n
  | None => Fin 0
  end.

(** [v >= 70 ? 'Overbought' : v <= 30 ? 'Oversold' : 'Neutral'] *)
Definition rsiStatus (v : option num) : RsiStatus :=
  if ge (toNumber v) (Fin 70) then Overbought
  else if le (toNumber v) (Fin 30) then Oversold
  else Neutral.

(** [v?.toFixed(1) || 'N/A'] *)
Definition rsiText (v : option num) : Text :=
  match v with
  | Some n => Fixed 1 n
  | None => Literal "N/A"
  end.

Record Report : Type := mkReport {
  title : string * string;
  priceLine : Text;
  ma50Line : Text;
  status50 : Status;
  percentDiff50 : Text;
  ma200Line : Text;
  status200 : Status;
  percentDiff200 : Text;
  rsi5Text : Text;
  rsi5Status : RsiStatus;
  rsi14Text : Text;
  rsi14Status : RsiStatus
}.

Definition report (data : AssetData) : Report :=
  let status50 := statusOf (currentPrice data) (ma50 data) in
  let status200 := statusOf (currentPrice data) (ma200 data) in
  let diff50 := abs (sub (currentPrice data) (ma50 data)) in
  let diff200 := abs (sub (currentPrice data) (ma200 data)) in
  let percentDiff50 := Fixed 2 (mul (div diff50 (ma50 data)) (Fin 100)) in
  let percentDiff200 := Fixed 2 (mul (div diff200 (ma200 data)) (Fin 100)) in
  let rsi5Status := rsiStatus (rsi5 data) in
  let rsi14Status := rsiStatus (rsi14 data) in
  mkReport (name data, symbol data)
    (Fixed 2 (currentPrice data))
    (Fixed 2 (ma50 data)) status50 percentDiff50
    (Fixed 2 (ma200 data)) status200 percentDiff200
    (rsiText (rsi5 data)) rsi5Status
    (rsiText (rsi14 data)) rsi14Status.

Inductive Reply : Type :=
| PermissionDenied
| ChannelRegistered
| NoData
| ReportReply (r : Report)
| ErrorReply.

(** [!setalertchannel], from the permission test on. *)
Definition setAlertChannelCommand (isAdministrator : bool) (channelId : string)
  : M Reply :=
  if negb isAdministrator then ret PermissionDenied
  else
    setAlertChannel channelId ;;;
    saveMarketData ;;;
    ret ChannelRegistered.

(** [!stonks <symbol>], from the call of [getAssetData] on. *)
Definition stonksCommand (symbol : string) : M Reply :=
  tryCatch
    (data <- getAssetData symbol ;;
     match data with
     | None => ret NoData
     | Some data => ret (ReportReply (report data))
     end)
    (consoleError CommandError ;;; ret ErrorReply).

(** ** The earlier bot, [bot.js] *)

Module Bot.

Record Snapshot : Type := mkSnapshot {
  currentPrice : num;
  ma200 : num;
  rsi5 : option num;
  rsi14 : option num
}.

Definition getMarketData : M (option Snapshot) :=
  tryCatch
    (result <- await (fun e => chartOf e "^GSPC") ;;
     match quotesOf result with
     | None => ret None
     | Some raw =>
         if (List.length raw <? 200)%nat then ret None
         else
           let quotes := latestFirst raw in
           if (List.length quotes <? 200)%nat then ret None
           else
             let currentPrice := at_index quotes 0 in
             let ma200 := div (sum (slice0 200 quotes)) (Fin 200) in
             let rsi5 := rsiIfEnough quotes 6 5 in
             let rsi14 := rsiIfEnough quotes 15 14 in
             ret (Some (mkSnapshot currentPrice ma200 rsi5 rsi14))
     end)
    (consoleError MarketDataError ;;; ret None).

Record Report : Type := mkReport {
  priceLine : Text;
  ma200Line : Text;
  status : Status;
  differenceText : Text;
  percentDiff : Text;
  rsi5Text : Text;
  rsi5Status : RsiStatus;
  rsi14Text : Text;
  rsi14Status : RsiStatus
}.

Definition report (data : Snapshot) : Report :=
  let status := statusOf (currentPrice data) (ma200 data) in
  let difference := abs (sub (currentPrice data) (ma200 data)) in
  let percentDiff := Fixed 2 (mul (div difference (ma200 data)) (Fin 100)) in
  let rsi5Status := rsiStatus (rsi5 data) in
  let rsi14Status := rsiStatus (rsi14 data) in
  mkReport (Fixed 2 (currentPrice data)) (Fixed 2 (ma200 data)) status
    (Fixed 2 difference) percentDiff
    (rsiText (rsi5 data)) rsi5Status
    (rsiText (rsi14 data)) rsi14Status.

End Bot.

(** ** Words of the specification *)

(** Arithmetic mean of a list of rationals. *)
Definition total (l : list Q) : Q := fold_right Qplus 0 l.
Definition mean (l : list Q) : Q :=
  total l / inject_Z (Z.of_nat (List.length l)).

(** The closes the pre-filter keeps, most recent first, as rationals. *)
Definition keptCloses (raw : list Quote) : list Q :=
  rev (flat_map (fun q => match close q with
                          | Some x => if Qeq_bool x 0 then [] else [x]
                          | None => []
                          end) raw).

(** The entries whose close is present (not [null]). *)
Definition closePresent (q : Quote) : bool :=
  match close q with
  | Some _ => true
  | None => false
  end.

(** A world in which nothing was sent or logged yet. *)
Definition freshWorld (md : MarketData) (file : option MarketData) : World :=
  mkWorld md file [] [].

(** ** Derived descriptions used in the statements *)

(** The record [getAssetData] builds from the kept closes. *)
Definition assetDataOf (symbol : string) (quote : QuoteSummary)
  (raw : list Quote) : AssetData :=
  let quotes := latestFirst raw in
  mkAssetData
    (orElse (longName quote) (orElse (shortName quote) symbol)) symbol
    (at_index quotes 0)
    (div (sum (slice0 50 quotes)) (Fin 50))
    (div (sum (slice0 200 quotes)) (Fin 200))
    (rsiIfEnough quotes 6 5) (rsiIfEnough quotes 15 14).

Definition snapshotOf (raw : list Quote) : Bot.Snapshot :=
  let quotes := latestFirst raw in
  Bot.mkSnapshot (at_index quotes 0)
    (div (sum (slice0 200 quotes)) (Fin 200))
    (rsiIfEnough quotes 6 5) (rsiIfEnough quotes 15 14).

(** The alerts one evaluation sends, from the side recorded before it. *)
Definition alertsFor (channel : string) (last : option Status)
  (data : AssetData) : list (string * AlertMessage) :=
  let side := statusOf (currentPrice data) (ma200 data) in
  match last with
  | Some l =>
      if negb (Status_eqb l side) then [(channel, alertMessage side data)]
      else []
  | None => []
  end.

(** The world a completed evaluation leaves. *)
Definition worldAfter (e : Env) (w : World) (channel : string)
  (data : AssetData) : World :=
  let md := mkMarketData (Some (statusOf (currentPrice data) (ma200 data)))
              (alertChannel (marketData w)) in
  mkWorld md
    (if writeSucceeds e then Some md else dataFile w)
    (outbox w ++ alertsFor channel (lastStatus (marketData w)) data)
    (if writeSucceeds e then console w else console w ++ [ScheduledJobError]).

(** The fetch for the S&P 500 fails: a call throws, or returns nothing. *)
Definition fetchFails (e : Env) : Prop :=
  quoteOf e "^GSPC" = Throws
  \/ quoteOf e "^GSPC" = Returns None
  \/ chartOf e "^GSPC" = Throws
  \/ exists result,
       chartOf e "^GSPC" = Returns result /\ quotesOf result = None.

(** The series has fewer than 200 entries with a close. *)
Definition tooFewCloses (e : Env) : Prop :=
  exists result raw,
    chartOf e "^GSPC" = Returns result
    /\ quotesOf result = Some raw
    /\ (List.length (filter closePresent raw) < 200)%nat.

(** The specification on a failed write: [lastStatus] in memory and the
    file are left as they were. *)
Definition untouchedOnFailedWrite (e : Env) (w : World) : Prop :=
  writeSucceeds e = false ->
  let w' := snd (scheduledJob e w) in
  lastStatus (marketData w') = lastStatus (marketData w)
  /\ dataFile w' = dataFile w.

(** ** Concrete inputs *)

(** 199 closes at 100 followed by one most recent close. *)
Definition flatSeries (latest : Q) : list Quote :=
  map (fun d => mkQuote d (Some 100)) (seq 0 199) ++ [mkQuote 199 (Some latest)].

Definition demoQuote : QuoteSummary := mkQuoteSummary (Some "S&P 500") None.

Definition demoEnv (series : list Quote) (write : bool) : Env :=
  mkEnv (fun _ => Returns (Some demoQuote))
    (fun _ => Returns (Some (mkChartResult (Some series))))
    (fun id => Returns (Some id))
    write.

Definition demoWorld (last : option Status) : World :=
  freshWorld (mkMarketData last (Some "alerts"))
    (Some (mkMarketData last (Some "alerts"))).

Definition demoData (latest : Q) : AssetData :=
  assetDataOf "^GSPC" demoQuote (flatSeries latest).

(** ** The indicator code over binary64

    The same source lines as above, with JavaScript numbers as primitive
    binary64 floats: [+], [-], [/], [Math.abs], [>] and [===] are the IEEE
    754 operations. *)

Module Binary64.

Import PrimFloat.
Local Open Scope float_scope.

#[local] Set Warnings "-inexact-float".

(** A small integer as a number. *)
Definition ofNat (n : nat) : float := of_uint63 (Uint63.of_Z (Z.of_nat n)).

(** Truthiness of a number: [0], [-0] and [NaN] are falsy. *)
Definition truthy (x : float) : bool := negb (eqb x 0 || is_nan x).

(** [closes[i]]; past the end it is [undefined], [NaN] in arithmetic. *)
Definition at_index (closes : list float) (i : nat) : float := nth i closes nan.

(** The body of [for (let i = 1; i <= period; i++)], run [steps] more times
    from index [i]. *)
Fixpoint rsiLoop (closes : list float) (steps i : nat) (gains losses : float)
  : float * float :=
  match steps with
  | O => (gains, losses)
  | S steps' =>
      let difference := sub (at_index closes (i - 1)%nat) (at_index closes i) in
      if ltb 0 difference
      then rsiLoop closes steps' (S i) (add gains difference) losses
      else rsiLoop closes steps' (S i) gains (add losses (abs difference))
  end.

Definition calculateRSI (closes : list float) (period : nat) : float :=
  let '(gains, losses) := rsiLoop closes period 1 0 0 in
  let avgGain := div gains (ofNat period) in
  let avgLoss := div losses (ofNat period) in
  let rs := if eqb avgLoss 0 then infinity else div avgGain avgLoss in
  sub 100 (div 100 (add 1 rs)).

(** One entry of [result.quotes]. *)
Record Quote : Type := mkQuote { date : nat; close : option float }.

(** [q => q.close] as the filter predicate and as the mapper (a [null]
    would count as [0] in the sums; none is left after the filter). *)
Definition closeTruthy (q : Quote) : bool :=
  match close q with
  | Some x => truthy x
  | None => false
  end.

Definition closeValue (q : Quote) : float :=
  match close q with
  | Some x => x
  | None => 0
  end.

(** [result.quotes.filter(q => q.close).map(q => q.close).reverse()] *)
Definition latestFirst (quotes : list Quote) : list float :=
  rev (map closeValue (filter closeTruthy quotes)).

(** [xs.slice(0, n)] and [xs.reduce((a, b) => a + b, 0)] *)
Definition slice0 (n : nat) (xs : list float) : list float := firstn n xs.
Definition sum (xs : list float) : float := fold_left add xs 0.

(** [quotes.length >= n ? calculateRSI(quotes.slice(0, n), p) : null] *)
Definition rsiIfEnough (quotes : list float) (n p : nat) : option float :=
  if (n <=? List.length quotes)%nat
  then Some (calculateRSI (slice0 n quotes) p)
  else None.

Record AssetData : Type := mkAssetData {
  name : string;
  symbol : string;
  currentPrice : float;
  ma50 : float;
  ma200 : float;
  rsi5 : option float;
  rsi14 : option float
}.

(** [getAssetData] from the test of [result?.quotes] on (lines 109-134),
    with the display name and [result?.quotes] at hand. *)
Definition chartToAssetData (name symbol : string)
  (resultQuotes : option (list Quote)) : option AssetData :=
  match resultQuotes with
  | None => None
  | Some raw =>
      if (List.length raw <? 200)%nat then None
      else
        let quotes := latestFirst raw in
        if (List.length quotes <? 200)%nat then None
        else
          let currentPrice := at_index quotes 0 in
          let ma50 := div (sum (slice0 50 quotes)) 50 in
          let ma200 := div (sum (slice0 200 quotes)) 200 in
          let rsi5 := rsiIfEnough quotes 6 5 in
          let rsi14 := rsiIfEnough quotes 15 14 in
          Some (mkAssetData name symbol currentPrice ma50 ma200 rsi5 rsi14)
  end.

(** The object [getMarketData] returns: [currentPrice], [ma200], [rsi5],
    [rsi14] (the field names of [AssetData] are taken in this module). *)
Record Snapshot : Type := mkSnapshot {
  snapPrice : float;
  snapMa200 : float;
  snapRsi5 : option float;
  snapRsi14 : option float
}.

(** [getMarketData] of [bot.js] from the test of [result?.quotes] on
    (lines 45-66). *)
Definition chartToSnapshot (resultQuotes : option (list Quote))
  : option Snapshot :=
  match resultQuotes with
  | None => None
  | Some raw =>
      if (List.length raw <? 200)%nat then None
      else
        let quotes := latestFirst raw in
        if (List.length quotes <? 200)%nat then None
        else
          let currentPrice := at_index quotes 0 in
          let ma200 := div (sum (slice0 200 quotes)) 200 in
          let rsi5 := rsiIfEnough quotes 6 5 in
          let rsi14 := rsiIfEnough quotes 15 14 in
          Some (mkSnapshot currentPrice ma200 rsi5 rsi14)
  end.

(** *** Words of the specification, over binary64 *)

(** The closes that are present (not [null]), in the order of the
    provider, and those among them that are neither zero nor [NaN]. *)
Definition presentCloses (raw : list Quote) : list float :=
  flat_map (fun q => match close q with
                     | Some x => [x]
                     | None => []
                     end) raw.

Definition usable (x : float) : bool := negb (eqb x 0) && negb (is_nan x).

Definition usableCloses (raw : list Quote) : list float :=
  flat_map (fun q => match close q with
                     | Some x => if usable x then [x] else []
                     | None => []
                     end) raw.

(** The [n] most recent values of a series given oldest first. *)
Definition mostRecent (n : nat) (series : list float) : list float :=
  firstn n (rev series).

(** The sum taken from left to right, divided by the count. *)
Definition floatMean (l : list float) : float :=
  div (fold_left add l 0) (ofNat (List.length l)).

(** The rational a finite float stands for. *)
Definition toQ (x : float) : option Q :=
  match FloatOps.Prim2SF x with
  | SpecFloat.S754_zero _ => Some 0%Q
  | SpecFloat.S754_finite s m e =>
      Some (Qred ((if s then - inject_Z (Zpos m) else inject_Z (Zpos m))
                  * Qpower 2 e))%Q
  | _ => None
  end.

(** The arithmetic mean, in exact rationals, of finite floats. *)
Fixpoint exactTotal (l : list float) : option Q :=
  match l with
  | [] => Some 0%Q
  | x :: rest =>
      match toQ x, exactTotal rest with
      | Some q, Some t => Some (Qred (q + t))%Q
      | _, _ => None
      end
  end.

Definition exactMean (l : list float) : option Q :=
  match exactTotal l with
  | Some t => Some (t / inject_Z (Z.of_nat (List.length l)))%Q
  | None => None
  end.

(** The look-back difference [closes[i-1] - closes[i]], the sum of those
    that are gains and the sum of the absolute values of the others, for
    [i = 1 .. P], and the two averages. *)
Definition lookback (c : list float) (i : nat) : float :=
  sub (nth (i - 1)%nat c nan) (nth i c nan).





(** The specification on the threshold: with at least 200 closes present
    the data is returned and its [ma200] is the arithmetic mean of the 200
    most recent of them; with fewer the answer is [null]. *)
Definition thresholdAsSpecified (raw : list Quote) : Prop :=
  ((200 <= List.length (presentCloses raw))%nat ->
   exists data m mu,
     chartToAssetData EmptyString EmptyString (Some raw) = Some data
     /\ toQ (ma200 data) = Some m
     /\ exactMean (mostRecent 200 (presentCloses raw)) = Some mu
     /\ (m == mu)%Q)
  /\ ((List.length (presentCloses raw) < 200)%nat ->
      chartToAssetData EmptyString EmptyString (Some raw) = None).

(** *** Concrete series *)

(** [n] entries that all close at [x]. *)
Definition constantSeries (n : nat) (x : float) : list Quote :=
  map (fun d => mkQuote d (Some x)) (seq 0 n).

(** 199 closes at 100 followed by one most recent close. *)
Definition flatSeries (latest : float) : list Quote :=
  constantSeries 199 100 ++ [mkQuote 199 (Some latest)].

Definition onePointOne : float := 1.1.

End Binary64.

(** ** Restarts, sequences of ticks and provider failures *)

(** The process starts again: [marketData] is read back from the file; what
    was sent and logged stays where it is. *)
Definition restart (w : World) : World :=
  mkWorld (loadMarketData (dataFile w)) (dataFile w) (outbox w) (console w).

(** A restart would read back the record that is in memory. *)
Definition inSync (w : World) : Prop :=
  loadMarketData (dataFile w) = marketData w.

(** The scheduler fires the callback once per tick, each tick with its own
    answers of the outside. *)
Definition runTicks (ticks : list Env) (w : World) : World :=
  fold_left (fun w e => snd (scheduledJob e w)) ticks w.

(** Number of changes of side along a sequence of sides, starting from the
    side recorded before it. *)
Fixpoint flips (last : option Status) (sides : list Status) : nat :=
  match sides with
  | [] => 0
  | s :: rest =>
      (match last with
       | Some l => if Status_eqb l s then 0 else 1
       | None => 0
       end + flips (Some s) rest)%nat
  end.

(** A tick on which the channel [id] is fetched and the provider gives at
    least 200 kept closes, classified as [side]. *)
Definition tickSees (id channel : string) (e : Env) (side : Status) : Prop :=
  channelOf e id = Returns (Some channel)
  /\ exists quote result raw,
       quoteOf e "^GSPC" = Returns (Some quote)
       /\ chartOf e "^GSPC" = Returns result
       /\ quotesOf result = Some raw
       /\ (200 <= List.length (latestFirst raw))%nat
       /\ side = statusOf (currentPrice (assetDataOf "^GSPC" quote raw))
                   (ma200 (assetDataOf "^GSPC" quote raw)).

(** A call of the provider made by [getAssetData] throws: the quote, or the
    chart once the quote was found. *)
Definition providerThrows (e : Env) (symbol : string) : Prop :=
  quoteOf e symbol = Throws
  \/ ((exists q, quoteOf e symbol = Returns (Some q))
      /\ chartOf e symbol = Throws).

(** The world after one more line on the console. *)
Definition logged (w : World) (l : LogLine) : World :=
  mkWorld (marketData w) (dataFile w) (outbox w) (console w ++ [l]).

(** ** The [messageCreate] handler of [bot.js] *)

Inductive BotReply : Type :=
| CouldNotFetch
| BotReport (r : Bot.Report)
| BotError.

(** [!stonks] of [bot.js], from the call of [getMarketData] on. *)
Definition botStonksCommand : M BotReply :=
  tryCatch
    (data <- Bot.getMarketData ;;
     match data with
     | None => ret CouldNotFetch
     | Some data => ret (BotReport (Bot.report data))
     end)
    (consoleError CommandError ;;; ret BotError).

(** * Properties *)

Ltac js_unfold :=
  unfold bind, tryCatch, await, ret, readMarketData, setLastStatus,
    channelSend, consoleError, saveMarketData, updWorld.

(** ** Comparisons and arithmetic on finite numbers *)

Lemma gt_Fin (x y : Q) : gt (Fin x) (Fin y) = true <-> y < x.
Proof.
  simpl. rewrite negb_true_iff, <- not_true_iff_false, Qle_bool_iff.
  split; [apply Qnot_le_lt | apply Qlt_not_le].
Qed.

Lemma gt_Fin_false (x y : Q) : gt (Fin x) (Fin y) = false <-> x <= y.
Proof.
  simpl. rewrite negb_false_iff. apply Qle_bool_iff.
Qed.

Lemma ge_Fin (x y : Q) : ge (Fin x) (Fin y) = true <-> y <= x.
Proof. simpl. apply Qle_bool_iff. Qed.

Lemma le_Fin (x y : Q) : le (Fin x) (Fin y) = true <-> x <= y.
Proof. unfold le. apply ge_Fin. Qed.

Lemma Qeq_bool_false (x y : Q) : ~ x == y -> Qeq_bool x y = false.
Proof.
  intros H. apply not_true_iff_false. intros E.
  apply H, Qeq_bool_iff, E.
Qed.

Lemma div_Fin (x y : Q) : ~ y == 0 -> div (Fin x) (Fin y) = Fin (x / y).
Proof. intros H. simpl. now rewrite (Qeq_bool_false _ _ H). Qed.

Lemma ofNat_pos (n : nat) : (1 <= n)%nat -> 0 < inject_Z (Z.of_nat n).
Proof.
  intros H. change 0 with (inject_Z 0). rewrite <- Zlt_Qlt. lia.
Qed.

Lemma at_index_Fin (c : list Q) (i : nat) :
  (i < List.length c)%nat -> at_index (map Fin c) i = Fin (nth i c 0).
Proof.
  intros H. unfold at_index.
  rewrite (nth_indep _ NaN (Fin 0)) by now rewrite length_map.
  apply (map_nth Fin).
Qed.

(** ** The loop of [calculateRSI] computes the sums of the specification *)

Lemma positivePart_nonneg (d : Q) : 0 <= positivePart d.
Proof. unfold positivePart. destruct (Qlt_le_dec 0 d); lra. Qed.

Lemma negativeAbs_nonneg (d : Q) : 0 <= negativeAbs d.
Proof.
  unfold negativeAbs. destruct (Qlt_le_dec d 0); [apply Qabs_nonneg | lra].
Qed.

Lemma specGains_nonneg (c : list Q) (P : nat) : 0 <= specGains c P.
Proof.
  induction P as [|k IH]; simpl; [lra|].
  pose proof (positivePart_nonneg (lookback c (S k))). lra.
Qed.

Lemma specLosses_nonneg (c : list Q) (P : nat) : 0 <= specLosses c P.
Proof.
  induction P as [|k IH]; simpl; [lra|].
  pose proof (negativeAbs_nonneg (lookback c (S k))). lra.
Qed.

Lemma gain_step (d : Q) : 0 < d -> positivePart d == d /\ negativeAbs d == 0.
Proof.
  intros H. unfold positivePart, negativeAbs.
  destruct (Qlt_le_dec 0 d); destruct (Qlt_le_dec d 0); split; lra.
Qed.

Lemma loss_step (d : Q) :
  d <= 0 -> positivePart d == 0 /\ negativeAbs d == Qabs d.
Proof.
  intros H. unfold positivePart, negativeAbs.
  destruct (Qlt_le_dec 0 d); destruct (Qlt_le_dec d 0); split;
    try lra; try reflexivity.
  assert (E : d == 0) by lra. rewrite E. reflexivity.
Qed.

Lemma rsiLoop_spec (c : list Q) :
  forall (n j : nat) (g l : Q),
    (S j + n <= List.length c)%nat ->
    g == specGains c j -> l == specLosses c j ->
    exists g' l',
      rsiLoop (map Fin c) n (S j) (Fin g) (Fin l) = (Fin g', Fin l')
      /\ g' == specGains c (j + n) /\ l' == specLosses c (j + n).
Proof.
  induction n as [|n IH]; intros j g l Hlen Hg Hl.
  - exists g, l. rewrite Nat.add_0_r. now repeat split.
  - cbn [rsiLoop].
    replace (S j - 1)%nat with j by lia.
    rewrite !at_index_Fin by lia.
    replace (j + S n)%nat with (S j + n)%nat by lia.
    assert (Hd : lookback c (S j) == nth j c 0 + - nth (S j) c 0).
    { unfold lookback. replace (S j - 1)%nat with j by lia. reflexivity. }
    cbn [sub neg add abs].
    destruct (gt (Fin (nth j c 0 + - nth (S j) c 0)) (Fin 0)) eqn:E.
    + apply gt_Fin in E. apply IH; [lia| |]; cbn [specGains specLosses];
        destruct (gain_step (lookback c (S j))) as [Hp Hn];
        rewrite ?Hp, ?Hn, ?Hd; lra.
    + apply gt_Fin_false in E. apply IH; [lia| |]; cbn [specGains specLosses];
        destruct (loss_step (lookback c (S j))) as [Hp Hn];
        rewrite ?Hp, ?Hn, ?Hd; lra.
Qed.

Lemma Qdiv_nonneg (a b : Q) : 0 <= a -> 0 < b -> 0 <= a / b.
Proof. intros Ha Hb. apply Qle_shift_div_l; [assumption | lra]. Qed.

(** Shape and range of the value [calculateRSI] returns on finite closes. *)
Lemma calculateRSI_finite (c : list Q) (P : nat) :
  (1 <= P)%nat -> (S P <= List.length c)%nat ->
  exists r,
    calculateRSI (map Fin c) P = Fin r
    /\ 0 <= r <= 100
    /\ (r == 100 <-> specAvgLoss c P == 0).
Proof.
  intros HP Hlen.
  destruct (rsiLoop_spec c P 0 0 0) as (g & l & Hloop & Hg & Hl);
    [simpl; lia | reflexivity | reflexivity |].
  simpl in Hg, Hl.
  unfold calculateRSI. rewrite Hloop.
  pose proof (ofNat_pos P HP) as Hp.
  pose proof (specGains_nonneg c P) as Hg0.
  pose proof (specLosses_nonneg c P) as Hl0.
  unfold ofNat.
  rewrite !div_Fin by lra.
  assert (Havg : specAvgLoss c P == l / inject_Z (Z.of_nat P)).
  { unfold specAvgLoss. rewrite Hl. reflexivity. }
  set (p := inject_Z (Z.of_nat P)) in *.
  cbn [strictEq].
  destruct (Qeq_bool (l / p) 0) eqn:E.
  - apply Qeq_bool_iff in E.
    exists (100 + - 0). split; [reflexivity|]. repeat split; lra.
  - apply Qeq_bool_neq in E.
    assert (Hal : 0 < l / p).
    { assert (0 <= l / p) by (apply Qdiv_nonneg; lra). lra. }
    assert (Hag : 0 <= g / p) by (apply Qdiv_nonneg; lra).
    assert (Hrs : 0 <= g / p / (l / p)) by (apply Qdiv_nonneg; lra).
    rewrite div_Fin by lra. cbn [add].
    rewrite div_Fin by lra. cbn [sub neg add].
    set (y := 1 + g / p / (l / p)) in *.
    assert (Hy : 1 <= y) by (unfold y; lra).
    assert (Hlo : 0 < 100 / y) by (apply Qlt_shift_div_l; lra).
    assert (Hhi : 100 / y <= 100) by (apply Qle_shift_div_r; lra).
    exists (100 + - (100 / y)). repeat split; lra.
Qed.

(** ** The series after the pre-filter *)

Lemma latestFirst_kept (raw : list Quote) :
  latestFirst raw = map Fin (keptCloses raw).
Proof.
  unfold latestFirst, keptCloses. rewrite map_rev. f_equal.
  induction raw as [|[d [x|]] raw IH];
    cbn [filter map flat_map closeTruthy closeValue close truthy];
    [reflexivity | | exact IH].
  destruct (Qeq_bool x 0); cbn [negb map app closeValue close];
    now rewrite IH.
Qed.

Lemma latestFirst_length (raw : list Quote) :
  List.length (latestFirst raw) = List.length (keptCloses raw).
Proof. rewrite latestFirst_kept. apply length_map. Qed.

Lemma keptCloses_length (raw : list Quote) :
  List.length (keptCloses raw) = List.length (filter closeTruthy raw).
Proof.
  rewrite <- latestFirst_length. unfold latestFirst.
  now rewrite length_rev, length_map.
Qed.

Lemma filter_length_le {A} (f : A -> bool) (l : list A) :
  (List.length (filter f l) <= List.length l)%nat.
Proof.
  induction l as [|a l IH]; simpl; [lia|].
  destruct (f a); simpl; lia.
Qed.

Lemma closeTruthy_present (q : Quote) :
  closeTruthy q = true -> closePresent q = true.
Proof. unfold closeTruthy, closePresent. now destruct (close q). Qed.

Lemma truthy_le_present (raw : list Quote) :
  (List.length (filter closeTruthy raw)
   <= List.length (filter closePresent raw))%nat.
Proof.
  induction raw as [|q raw IH]; simpl; [lia|].
  pose proof (closeTruthy_present q) as H.
  destruct (closeTruthy q); [rewrite H by reflexivity; simpl; lia|].
  destruct (closePresent q); simpl; lia.
Qed.

Lemma fold_left_add_Fin (l : list Q) (a : Q) :
  fold_left add (map Fin l) (Fin a) = Fin (fold_left Qplus l a).
Proof.
  revert a. induction l as [|x l IH]; intros a; simpl; [reflexivity|].
  apply IH.
Qed.

Lemma fold_left_total (l : list Q) (a : Q) :
  fold_left Qplus l a == a + total l.
Proof.
  revert a. induction l as [|x l IH]; intros a; simpl; [lra|].
  rewrite IH. lra.
Qed.

(** [xs.slice(0, n).reduce(...) / n] on finite numbers is their mean. *)
Lemma average_slice (l : list Q) (n : nat) :
  (1 <= n)%nat -> (n <= List.length l)%nat ->
  exists m,
    div (sum (slice0 n (map Fin l))) (ofNat n) = Fin m
    /\ m == mean (firstn n l).
Proof.
  intros Hn Hlen. unfold sum, slice0.
  rewrite firstn_map, fold_left_add_Fin.
  pose proof (ofNat_pos n Hn) as Hp.
  unfold ofNat. rewrite div_Fin by lra.
  eexists; split; [reflexivity|].
  unfold mean. rewrite length_firstn, Nat.min_l by assumption.
  rewrite fold_left_total. field. lra.
Qed.

Lemma rsiIfEnough_finite (l : list Q) (P : nat) :
  (1 <= P)%nat -> (S P <= List.length l)%nat ->
  exists r,
    rsiIfEnough (map Fin l) (S P) P = Some (Fin r) /\ 0 <= r <= 100.
Proof.
  intros HP Hlen. unfold rsiIfEnough, slice0.
  rewrite length_map.
  destruct (Nat.leb_spec (S P) (List.length l)) as [_|]; [|lia].
  rewrite firstn_map.
  destruct (calculateRSI_finite (firstn (S P) l) P HP) as (r & Hr & Hrange & _).
  { rewrite length_firstn. lia. }
  exists r. now rewrite Hr.
Qed.

(** ** [getAssetData] and [getMarketData] *)

Lemma getAssetData_valid symbol e w quote result raw :
  quoteOf e symbol = Returns (Some quote) ->
  chartOf e symbol = Returns result ->
  quotesOf result = Some raw ->
  (200 <= List.length (keptCloses raw))%nat ->
  getAssetData symbol e w = (Ok (Some (assetDataOf symbol quote raw)), w).
Proof.
  intros Hq Hc Hr Hlen.
  pose proof (filter_length_le closeTruthy raw) as Hle.
  rewrite <- keptCloses_length in Hle.
  unfold getAssetData. js_unfold. rewrite Hq, Hc, Hr.
  destruct (Nat.ltb_spec (List.length raw) 200) as [|_]; [lia|].
  rewrite latestFirst_length.
  destruct (Nat.ltb_spec (List.length (keptCloses raw)) 200) as [|_]; [lia|].
  reflexivity.
Qed.

Lemma getAssetData_invalid symbol e w quote result raw :
  quoteOf e symbol = Returns (Some quote) ->
  chartOf e symbol = Returns result ->
  quotesOf result = Some raw ->
  (List.length (keptCloses raw) < 200)%nat ->
  getAssetData symbol e w = (Ok None, w).
Proof.
  intros Hq Hc Hr Hlen.
  unfold getAssetData. js_unfold. rewrite Hq, Hc, Hr.
  destruct (List.length raw <? 200)%nat; [reflexivity|].
  rewrite latestFirst_length.
  destruct (Nat.ltb_spec (List.length (keptCloses raw)) 200) as [_|]; [|lia].
  reflexivity.
Qed.

(** [getAssetData] never throws and touches nothing but the console; it
    returns data only in the way [getAssetData_valid] describes. *)
Lemma getAssetData_cases symbol e w :
  (exists quote result raw,
      quoteOf e symbol = Returns (Some quote)
      /\ chartOf e symbol = Returns result
      /\ quotesOf result = Some raw
      /\ (200 <= List.length (keptCloses raw))%nat
      /\ getAssetData symbol e w
         = (Ok (Some (assetDataOf symbol quote raw)), w))
  \/ getAssetData symbol e w = (Ok None, w)
  \/ getAssetData symbol e w
     = (Ok None,
        mkWorld (marketData w) (dataFile w) (outbox w)
          (console w ++ [DataError symbol])).
Proof.
  destruct (quoteOf e symbol) as [[quote|]|] eqn:Hq.
  - destruct (chartOf e symbol) as [result|] eqn:Hc.
    + destruct (quotesOf result) as [raw|] eqn:Hr.
      * destruct (Nat.lt_ge_cases (List.length (keptCloses raw)) 200).
        -- right; left. eapply getAssetData_invalid; eassumption.
        -- left. exists quote, result, raw. repeat split; trivial.
           eapply getAssetData_valid; eassumption.
      * right; left. unfold getAssetData. js_unfold.
        now rewrite Hq, Hc, Hr.
    + right; right. unfold getAssetData. js_unfold. now rewrite Hq, Hc.
  - right; left. unfold getAssetData. js_unfold. now rewrite Hq.
  - right; right. unfold getAssetData. js_unfold. now rewrite Hq.
Qed.

Lemma getMarketData_valid e w result raw :
  chartOf e "^GSPC" = Returns result ->
  quotesOf result = Some raw ->
  (200 <= List.length (keptCloses raw))%nat ->
  Bot.getMarketData e w = (Ok (Some (snapshotOf raw)), w).
Proof.
  intros Hc Hr Hlen.
  pose proof (filter_length_le closeTruthy raw) as Hle.
  rewrite <- keptCloses_length in Hle.
  unfold Bot.getMarketData. js_unfold. rewrite Hc, Hr.
  destruct (Nat.ltb_spec (List.length raw) 200) as [|_]; [lia|].
  rewrite latestFirst_length.
  destruct (Nat.ltb_spec (List.length (keptCloses raw)) 200) as [|_]; [lia|].
  reflexivity.
Qed.

Lemma getMarketData_invalid e w result raw :
  chartOf e "^GSPC" = Returns result ->
  quotesOf result = Some raw ->
  (List.length (keptCloses raw) < 200)%nat ->
  Bot.getMarketData e w = (Ok None, w).
Proof.
  intros Hc Hr Hlen.
  unfold Bot.getMarketData. js_unfold. rewrite Hc, Hr.
  destruct (List.length raw <? 200)%nat; [reflexivity|].
  rewrite latestFirst_length.
  destruct (Nat.ltb_spec (List.length (keptCloses raw)) 200) as [_|]; [|lia].
  reflexivity.
Qed.

Lemma getMarketData_cases e w :
  (exists result raw,
      chartOf e "^GSPC" = Returns result
      /\ quotesOf result = Some raw
      /\ (200 <= List.length (keptCloses raw))%nat
      /\ Bot.getMarketData e w = (Ok (Some (snapshotOf raw)), w))
  \/ Bot.getMarketData e w = (Ok None, w)
  \/ Bot.getMarketData e w
     = (Ok None,
        mkWorld (marketData w) (dataFile w) (outbox w)
          (console w ++ [MarketDataError])).
Proof.
  destruct (chartOf e "^GSPC") as [result|] eqn:Hc.
  - destruct (quotesOf result) as [raw|] eqn:Hr.
    + destruct (Nat.lt_ge_cases (List.length (keptCloses raw)) 200).
      * right; left. eapply getMarketData_invalid; eassumption.
      * left. exists result, raw. repeat split; trivial.
        eapply getMarketData_valid; eassumption.
    + right; left. unfold Bot.getMarketData. js_unfold. now rewrite Hc, Hr.
  - right; right. unfold Bot.getMarketData. js_unfold. now rewrite Hc.
Qed.

Lemma getAssetData_some_inv symbol e w data w' :
  getAssetData symbol e w = (Ok (Some data), w') ->
  w' = w
  /\ exists quote result raw,
      quoteOf e symbol = Returns (Some quote)
      /\ chartOf e symbol = Returns result
      /\ quotesOf result = Some raw
      /\ (200 <= List.length (keptCloses raw))%nat
      /\ data = assetDataOf symbol quote raw.
Proof.
  intros H.
  destruct (getAssetData_cases symbol e w)
    as [(quote & result & raw & Hq & Hc & Hr & Hlen & E) | [E | E]];
    rewrite E in H; try discriminate.
  injection H as <- <-. split; [reflexivity|].
  exists quote, result, raw. repeat split; assumption.
Qed.

Lemma getMarketData_some_inv e w data w' :
  Bot.getMarketData e w = (Ok (Some data), w') ->
  w' = w
  /\ exists result raw,
      chartOf e "^GSPC" = Returns result
      /\ quotesOf result = Some raw
      /\ (200 <= List.length (keptCloses raw))%nat
      /\ data = snapshotOf raw.
Proof.
  intros H.
  destruct (getMarketData_cases e w)
    as [(result & raw & Hc & Hr & Hlen & E) | [E | E]];
    rewrite E in H; try discriminate.
  injection H as <- <-. split; [reflexivity|].
  exists result, raw. repeat split; assumption.
Qed.

(** The fields computed from at least 200 kept closes are finite numbers;
    [ma200] is the mean of the 200 most recent ones. *)
Lemma indicators_finite (raw : list Quote) :
  (200 <= List.length (keptCloses raw))%nat ->
  let quotes := latestFirst raw in
  exists price m200 r5 r14,
    at_index quotes 0 = Fin price
    /\ div (sum (slice0 200 quotes)) (Fin 200) = Fin m200
    /\ m200 == mean (firstn 200 (keptCloses raw))
    /\ rsiIfEnough quotes 6 5 = Some (Fin r5) /\ 0 <= r5 <= 100
    /\ rsiIfEnough quotes 15 14 = Some (Fin r14) /\ 0 <= r14 <= 100.
Proof.
  intros Hlen quotes. subst quotes. rewrite latestFirst_kept.
  destruct (average_slice (keptCloses raw) 200) as (m & Hm & Hmean);
    [lia | lia |].
  destruct (rsiIfEnough_finite (keptCloses raw) 5) as (r5 & H5 & B5);
    [lia | lia |].
  destruct (rsiIfEnough_finite (keptCloses raw) 14) as (r14 & H14 & B14);
    [lia | lia |].
  exists (nth 0 (keptCloses raw) 0), m, r5, r14.
  rewrite at_index_Fin by lia.
  repeat split; trivial; apply B5 || apply B14.
Qed.

(** ** The scheduled job *)

Lemma evaluate_run e w channel data :
  tryCatch (evaluate channel data) (consoleError ScheduledJobError) e w
  = (Ok tt, worldAfter e w channel data).
Proof.
  unfold evaluate, worldAfter, alertsFor. js_unfold.
  destruct w as [[last ch] file out log]; cbn.
  destruct last as [l|]; [destruct (negb (Status_eqb l _))|];
    cbn; destruct (writeSucceeds e); cbn; rewrite ?app_nil_r; reflexivity.
Qed.

Lemma scheduledJob_valid e w id channel data :
  alertChannel (marketData w) = Some id ->
  id <> EmptyString ->
  channelOf e id = Returns (Some channel) ->
  getAssetData "^GSPC" e w = (Ok (Some data), w) ->
  scheduledJob e w = (Ok tt, worldAfter e w channel data).
Proof.
  intros Hid Hne Hch Hdata.
  rewrite <- evaluate_run.
  unfold scheduledJob. unfold bind at 1. unfold readMarketData at 1.
  rewrite Hid. apply String.eqb_neq in Hne. rewrite Hne.
  unfold bind at 1. unfold await. rewrite Hch.
  unfold tryCatch, bind at 1. rewrite Hdata. reflexivity.
Qed.

(** ** Concrete runs *)

Example flat_series_ma200 :
  ma200 (demoData 110) = Fin (20010 # 200)
  /\ currentPrice (demoData 110) = Fin 110
  /\ rsi5 (demoData 110) = Some (Fin (100 + - 0)).
Proof. vm_compute. repeat split. Qed.

Example bullish_tick :
  scheduledJob (demoEnv (flatSeries 110) true) (demoWorld (Some below))
  = (Ok tt,
     mkWorld (mkMarketData (Some above) (Some "alerts"))
       (Some (mkMarketData (Some above) (Some "alerts")))
       [("alerts", alertMessage above (demoData 110))] []).
Proof. vm_compute. reflexivity. Qed.

(** ** The crossover rule *)

Lemma statusOf_above (p m : Q) : statusOf (Fin p) (Fin m) = above <-> m < p.
Proof.
  unfold statusOf. rewrite <- gt_Fin.
  destruct (gt (Fin p) (Fin m)); split; congruence.
Qed.

Lemma statusOf_below (p m : Q) : statusOf (Fin p) (Fin m) = below <-> p <= m.
Proof.
  unfold statusOf. rewrite <- gt_Fin_false.
  destruct (gt (Fin p) (Fin m)); split; congruence.
Qed.

Lemma valid_data_finite symbol e w data w' :
  getAssetData symbol e w = (Ok (Some data), w') ->
  exists price ma, currentPrice data = Fin price /\ ma200 data = Fin ma.
Proof.
  intros H. apply getAssetData_some_inv in H.
  destruct H as (_ & quote & result & raw & _ & _ & _ & Hlen & ->).
  destruct (indicators_finite raw Hlen) as (p & m & _ & _ & Hp & Hm & _).
  exists p, m. split; assumption.
Qed.

(** C1. On a tick that obtains data, the side is [above] exactly when
    the price is greater than the 200-day average and [below] otherwise;
    from [above] with the price under the average a bearish alert is sent
    and the side recorded is [below]; from [below] with the price over the
    average a bullish alert is sent and the side recorded is [above]; when
    the side recorded before equals the new one nothing is sent. *)
Theorem crossover_alert e w id channel data :
  alertChannel (marketData w) = Some id ->
  id <> EmptyString ->
  channelOf e id = Returns (Some channel) ->
  getAssetData "^GSPC" e w = (Ok (Some data), w) ->
  exists price ma,
    currentPrice data = Fin price /\ ma200 data = Fin ma
    /\ let side := statusOf (currentPrice data) (ma200 data) in
       let w' := snd (scheduledJob e w) in
       (side = above <-> ma < price)
       /\ (side = below <-> price <= ma)
       /\ (lastStatus (marketData w) = Some above -> price < ma ->
           outbox w' = outbox w ++ [(channel, alertMessage below data)]
           /\ direction (alertMessage below data) = BearishCrossover
           /\ lastStatus (marketData w') = Some below)
       /\ (lastStatus (marketData w) = Some below -> ma < price ->
           outbox w' = outbox w ++ [(channel, alertMessage above data)]
           /\ direction (alertMessage above data) = BullishCrossover
           /\ lastStatus (marketData w') = Some above)
       /\ (lastStatus (marketData w) = Some side -> outbox w' = outbox w).
Proof.
  intros Hid Hne Hch Hdata.
  destruct (valid_data_finite _ _ _ _ _ Hdata) as (price & ma & Hp & Hm).
  exists price, ma. split; [exact Hp|]. split; [exact Hm|].
  rewrite (scheduledJob_valid e w id channel data Hid Hne Hch Hdata).
  cbn [snd]. unfold worldAfter, alertsFor. cbn [outbox marketData lastStatus].
  rewrite Hp, Hm.
  split; [apply statusOf_above|]. split; [apply statusOf_below|].
  split; [intros Hlast Hlt | split; [intros Hlast Hlt | intros Hlast]].
  - assert (E : statusOf (Fin price) (Fin ma) = below)
      by (apply statusOf_below; lra).
    rewrite Hlast, E. repeat split.
  - assert (E : statusOf (Fin price) (Fin ma) = above)
      by (apply statusOf_above; assumption).
    rewrite Hlast, E. repeat split.
  - rewrite Hlast.
    destruct (statusOf (Fin price) (Fin ma)); cbn; apply app_nil_r.
Qed.

Lemma crossover_alert_witness :
  let w' := snd (scheduledJob (demoEnv (flatSeries 110) true)
                   (demoWorld (Some below))) in
  outbox w' = [("alerts", alertMessage above (demoData 110))]
  /\ lastStatus (marketData w') = Some above.
Proof.
  destruct (crossover_alert (demoEnv (flatSeries 110) true)
              (demoWorld (Some below)) "alerts" "alerts" (demoData 110))
    as (price & ma & Hp & Hm & _ & _ & _ & Hbull & _).
  - reflexivity.
  - discriminate.
  - reflexivity.
  - vm_compute. reflexivity.
  - vm_compute in Hp, Hm. injection Hp as <-. injection Hm as <-.
    destruct Hbull as (Hout & _ & Hlast); [reflexivity | reflexivity |].
    split; assumption.
Defined.

Lemma getAssetData_frame symbol e w r w1 :
  getAssetData symbol e w = (r, w1) ->
  marketData w1 = marketData w /\ dataFile w1 = dataFile w
  /\ outbox w1 = outbox w.
Proof.
  intros H.
  destruct (getAssetData_cases symbol e w)
    as [(quote & result & raw & _ & _ & _ & _ & E) | [E | E]];
    rewrite E in H; injection H as <- <-; repeat split.
Qed.

(** Every run of the job is of one of three kinds: it stops before or at
    the fetch of the channel, it gets no data, or it evaluates. *)
Lemma scheduledJob_cases e w :
  snd (scheduledJob e w) = w
  \/ (exists w1,
        getAssetData "^GSPC" e w = (Ok None, w1)
        /\ scheduledJob e w = (Ok tt, w1))
  \/ (exists id channel data,
        alertChannel (marketData w) = Some id
        /\ id <> EmptyString
        /\ channelOf e id = Returns (Some channel)
        /\ getAssetData "^GSPC" e w = (Ok (Some data), w)
        /\ scheduledJob e w = (Ok tt, worldAfter e w channel data)).
Proof.
  destruct (alertChannel (marketData w)) as [id|] eqn:Hid.
  2:{ left. unfold scheduledJob, bind, readMarketData. now rewrite Hid. }
  destruct (String.eqb_spec id EmptyString) as [->|Hne].
  { left. unfold scheduledJob, bind, readMarketData. now rewrite Hid. }
  destruct (channelOf e id) as [[channel|]|] eqn:Hch.
  - destruct (getAssetData "^GSPC" e w) as [[[data|]|] w1] eqn:Hdata.
    + destruct (getAssetData_some_inv _ _ _ _ _ Hdata) as [-> _].
      right; right. exists id, channel, data. repeat split; trivial.
      now apply scheduledJob_valid with (id := id).
    + right; left. exists w1. split; [reflexivity|].
      unfold scheduledJob. unfold bind at 1. unfold readMarketData at 1.
      rewrite Hid. apply String.eqb_neq in Hne. rewrite Hne.
      unfold bind at 1. unfold await. rewrite Hch.
      unfold tryCatch, bind at 1. rewrite Hdata. reflexivity.
    + destruct (getAssetData_cases "^GSPC" e w)
        as [(? & ? & ? & _ & _ & _ & _ & E) | [E | E]];
        rewrite E in Hdata; discriminate.
  - left. unfold scheduledJob, bind, readMarketData, await.
    rewrite Hid. apply String.eqb_neq in Hne. now rewrite Hne, Hch.
  - left. unfold scheduledJob, bind, readMarketData, await.
    rewrite Hid. apply String.eqb_neq in Hne. now rewrite Hne, Hch.
Qed.

(** C2. A tick that obtains data while no side was recorded yet records the
    newly classified side, in memory and (the write succeeding) in the
    file, and sends no alert. *)
Theorem first_run_silent e w id channel data :
  alertChannel (marketData w) = Some id ->
  id <> EmptyString ->
  channelOf e id = Returns (Some channel) ->
  getAssetData "^GSPC" e w = (Ok (Some data), w) ->
  lastStatus (marketData w) = None ->
  let side := statusOf (currentPrice data) (ma200 data) in
  let w' := snd (scheduledJob e w) in
  outbox w' = outbox w
  /\ lastStatus (marketData w') = Some side
  /\ (writeSucceeds e = true ->
      dataFile w'
      = Some (mkMarketData (Some side) (alertChannel (marketData w)))).
Proof.
  intros Hid Hne Hch Hdata Hlast.
  rewrite (scheduledJob_valid e w id channel data Hid Hne Hch Hdata).
  cbn [snd]. unfold worldAfter, alertsFor.
  cbn [outbox marketData lastStatus dataFile].
  rewrite Hlast. repeat split; [apply app_nil_r|].
  intros ->. reflexivity.
Qed.

Lemma first_run_silent_witness :
  let w' := snd (scheduledJob (demoEnv (flatSeries 110) true)
                   (demoWorld None)) in
  outbox w' = []
  /\ lastStatus (marketData w') = Some above
  /\ dataFile w' = Some (mkMarketData (Some above) (Some "alerts")).
Proof.
  destruct (first_run_silent (demoEnv (flatSeries 110) true)
              (demoWorld None) "alerts" "alerts" (demoData 110))
    as (Hout & Hlast & Hfile).
  - reflexivity.
  - discriminate.
  - reflexivity.
  - vm_compute. reflexivity.
  - reflexivity.
  - split; [exact Hout|]. split; [exact Hlast|].
    exact (Hfile eq_refl).
Defined.

(** C6. A tick that obtains data records the newly classified side as
    [lastStatus], whatever side was recorded before and whether or not an
    alert was sent; the other field is kept, and the write succeeding the
    file holds the same record. *)
Theorem side_persisted e w id channel data :
  alertChannel (marketData w) = Some id ->
  id <> EmptyString ->
  channelOf e id = Returns (Some channel) ->
  getAssetData "^GSPC" e w = (Ok (Some data), w) ->
  let side := statusOf (currentPrice data) (ma200 data) in
  let w' := snd (scheduledJob e w) in
  marketData w' = mkMarketData (Some side) (alertChannel (marketData w))
  /\ (writeSucceeds e = true -> dataFile w' = Some (marketData w')).
Proof.
  intros Hid Hne Hch Hdata.
  rewrite (scheduledJob_valid e w id channel data Hid Hne Hch Hdata).
  cbn [snd]. unfold worldAfter. cbn [marketData dataFile].
  split; [reflexivity|]. intros ->. reflexivity.
Qed.

Lemma side_persisted_witness :
  let w' := snd (scheduledJob (demoEnv (flatSeries 110) true)
                   (demoWorld (Some above))) in
  outbox w' = []
  /\ marketData w' = mkMarketData (Some above) (Some "alerts")
  /\ dataFile w' = Some (mkMarketData (Some above) (Some "alerts")).
Proof.
  destruct (side_persisted (demoEnv (flatSeries 110) true)
              (demoWorld (Some above)) "alerts" "alerts" (demoData 110))
    as (Hmd & Hfile).
  - reflexivity.
  - discriminate.
  - reflexivity.
  - vm_compute. reflexivity.
  - split; [vm_compute; reflexivity|]. split; [exact Hmd|].
    exact (eq_trans (Hfile eq_refl) (f_equal Some Hmd)).
Defined.

(** ** Ticks without data *)

Lemma no_data e w :
  fetchFails e \/ tooFewCloses e ->
  exists w1, getAssetData "^GSPC" e w = (Ok None, w1).
Proof.
  intros H.
  destruct (getAssetData_cases "^GSPC" e w)
    as [(quote & result & raw & Hq & Hc & Hr & Hlen & _) | [E | E]];
    [exfalso | eauto | eauto].
  destruct H as [[F | [F | [F | (r & F & G)]]] | (r & raw' & F & G & Hfew)];
    try congruence.
  assert (r = result) by congruence. subst r.
  assert (raw' = raw) by congruence. subst raw'.
  pose proof (truthy_le_present raw). rewrite keptCloses_length in Hlen. lia.
Qed.

(** C7. When the fetch fails or the series has fewer than 200 closes, the
    tick leaves the record in memory and the file as they were and sends
    nothing. *)
Theorem no_data_no_op e w :
  fetchFails e \/ tooFewCloses e ->
  let w' := snd (scheduledJob e w) in
  marketData w' = marketData w
  /\ dataFile w' = dataFile w
  /\ outbox w' = outbox w.
Proof.
  intros H. destruct (no_data e w H) as (w1 & Hnone).
  destruct (scheduledJob_cases e w)
    as [E | [(w2 & Hdata & E) | (id & ch & data & _ & _ & _ & Hdata & _)]].
  - cbn zeta. rewrite E. repeat split.
  - cbn zeta. rewrite E. cbn [snd]. eapply getAssetData_frame. exact Hdata.
  - rewrite Hnone in Hdata. discriminate.
Qed.

Lemma no_data_no_op_witness :
  let e := demoEnv (firstn 150 (flatSeries 110)) true in
  let w' := snd (scheduledJob e (demoWorld (Some below))) in
  marketData w' = mkMarketData (Some below) (Some "alerts")
  /\ dataFile w' = Some (mkMarketData (Some below) (Some "alerts"))
  /\ outbox w' = [].
Proof.
  apply (no_data_no_op (demoEnv (firstn 150 (flatSeries 110)) true)
           (demoWorld (Some below))).
  right. eexists. eexists. split; [reflexivity|]. split; [reflexivity|].
  vm_compute. lia.
Defined.

(** ** Error paths *)

Example failed_write_run :
  scheduledJob (demoEnv (flatSeries 110) false) (demoWorld (Some below))
  = (Ok tt,
     mkWorld (mkMarketData (Some above) (Some "alerts"))
       (Some (mkMarketData (Some below) (Some "alerts")))
       [("alerts", alertMessage above (demoData 110))]
       [ScheduledJobError]).
Proof. vm_compute. reflexivity. Qed.

(** Counterexample to C3: the write fails on a tick that crosses from
    [below] to [above]; the record in memory says [above] afterwards while
    the file still says [below]. *)
Lemma failed_write_diverges :
  ~ untouchedOnFailedWrite (demoEnv (flatSeries 110) false)
      (demoWorld (Some below)).
Proof.
  intros H. destruct (H eq_refl) as [Hmem _].
  rewrite failed_write_run in Hmem. discriminate Hmem.
Qed.

(** The channel registration is written the same way: the field is set in
    memory first, and a failing write leaves it set. *)
Example failed_registration :
  setAlertChannelCommand true "general" (demoEnv [] false)
    (freshWorld initialMarketData None)
  = (Raised, freshWorld (mkMarketData None (Some "general")) None).
Proof. reflexivity. Qed.

(** After such a tick a restart reads [below] back from the file, and the
    next tick sends the same alert a second time. *)
Example alert_repeated_after_restart :
  let w1 := snd (scheduledJob (demoEnv (flatSeries 110) false)
                   (demoWorld (Some below))) in
  let restarted := freshWorld (loadMarketData (dataFile w1)) (dataFile w1) in
  outbox (snd (scheduledJob (demoEnv (flatSeries 110) true) restarted))
  = outbox w1.
Proof. vm_compute. reflexivity. Qed.

(** C3, amended.  No run of the job writes a record in part: the alert
    channel is kept and the file holds its former content or the whole
    record in memory.  A run that throws, or that gets no data, leaves the
    record in memory and the file as they were.  When the write fails after
    data was obtained, the error is caught and logged and the file keeps its
    content, but [lastStatus] in memory is already the new side. *)
Theorem error_paths e w :
  let w' := snd (scheduledJob e w) in
  alertChannel (marketData w') = alertChannel (marketData w)
  /\ (dataFile w' = dataFile w \/ dataFile w' = Some (marketData w'))
  /\ (fst (scheduledJob e w) = Raised -> w' = w)
  /\ (forall w1,
        getAssetData "^GSPC" e w = (Ok None, w1) ->
        marketData w' = marketData w /\ dataFile w' = dataFile w)
  /\ (forall id channel data,
        alertChannel (marketData w) = Some id ->
        id <> EmptyString ->
        channelOf e id = Returns (Some channel) ->
        getAssetData "^GSPC" e w = (Ok (Some data), w) ->
        writeSucceeds e = false ->
        fst (scheduledJob e w) = Ok tt
        /\ lastStatus (marketData w')
           = Some (statusOf (currentPrice data) (ma200 data))
        /\ dataFile w' = dataFile w
        /\ console w' = console w ++ [ScheduledJobError]).
Proof.
  cbn zeta.
  destruct (scheduledJob_cases e w)
    as [E | [(w1 & Hnone & E) | (id & ch & data & Hid & Hne & Hch & Hdata & E)]].
  - rewrite E.
    split; [reflexivity|]. split; [now left|]. split; [reflexivity|].
    split; [intros; now split|].
    intros id ch data Hid Hne Hch Hdata Hw.
    pose proof (scheduledJob_valid e w id ch data Hid Hne Hch Hdata) as V.
    rewrite V. cbn [fst]. split; [reflexivity|].
    rewrite V in E. cbn [snd] in E. symmetry in E.
    split; [rewrite E; reflexivity|]. split; [reflexivity|].
    rewrite E at 1. unfold worldAfter. cbn [console]. now rewrite Hw.
  - rewrite E. cbn [fst snd].
    destruct (getAssetData_frame _ _ _ _ _ Hnone) as (Hmd & Hfile & _).
    rewrite Hmd, Hfile.
    split; [reflexivity|]. split; [now left|]. split; [discriminate|].
    split; [intros; now split|].
    intros id ch data _ _ _ Hdata. rewrite Hdata in Hnone. discriminate.
  - rewrite E. cbn [fst snd]. unfold worldAfter.
    cbn [marketData dataFile alertChannel lastStatus console].
    split; [reflexivity|].
    split; [destruct (writeSucceeds e); auto|].
    split; [discriminate|].
    split; [intros w1 H; rewrite H in Hdata; discriminate|].
    intros id' ch' data' _ _ _ Hdata' Hw.
    assert (data' = data) by congruence. subst data'.
    rewrite Hw. repeat split.
Qed.

Lemma error_paths_witness :
  let w' := snd (scheduledJob (demoEnv (flatSeries 110) false)
                   (demoWorld (Some below))) in
  lastStatus (marketData w') = Some above
  /\ dataFile w' = Some (mkMarketData (Some below) (Some "alerts"))
  /\ console w' = [ScheduledJobError].
Proof.
  destruct (error_paths (demoEnv (flatSeries 110) false)
              (demoWorld (Some below)))
    as (_ & _ & _ & _ & Hfail).
  destruct (Hfail "alerts" "alerts" (demoData 110))
    as (_ & Hlast & Hfile & Hlog).
  - reflexivity.
  - discriminate.
  - reflexivity.
  - vm_compute. reflexivity.
  - reflexivity.
  - split; [exact Hlast|]. split; [exact Hfile | exact Hlog].
Defined.

(** ** RSI *)

Example rsi_sixty : calculateRSI (map Fin [3; 1; 2; 5; 1; 1]) 5 = Fin (3000 # 50).
Proof. vm_compute. reflexivity. Qed.

(** A period of zero days divides zero by zero. *)
Example rsi_period_zero : calculateRSI [Fin 3] 0 = NaN.
Proof. reflexivity. Qed.

(** ** The pre-filter *)

(** What the filter keeps: the entries whose close is a number other
    than zero. *)
Lemma prefilter_keeps (raw : list Quote) (q : Quote) :
  In q (filter closeTruthy raw)
  <-> In q raw /\ exists x, close q = Some x /\ ~ x == 0.
Proof.
  rewrite filter_In. unfold closeTruthy, truthy.
  destruct (close q) as [x|].
  - rewrite negb_true_iff. split; intros [Hin H]; split; trivial.
    + exists x. split; [reflexivity|]. now apply Qeq_bool_neq.
    + destruct H as (y & [= <-] & Hy). now apply Qeq_bool_false.
  - split; intros [Hin H]; [discriminate | now destruct H as (y & [=] & _)].
Qed.

(** C8 fails on the code: an entry whose close is the number 0 is dropped
    with the [null] ones, and 200 present closes of which one is 0 are
    answered with [null]. *)
Theorem zero_close_dropped :
  let series :=
    [mkQuote 0 (Some 5); mkQuote 1 (Some 0); mkQuote 2 None;
     mkQuote 3 (Some 7)] in
  filter closePresent series
  = [mkQuote 0 (Some 5); mkQuote 1 (Some 0); mkQuote 3 (Some 7)]
  /\ filter closeTruthy series = [mkQuote 0 (Some 5); mkQuote 3 (Some 7)]
  /\ List.length (filter closePresent (flatSeries 0)) = 200%nat
  /\ getAssetData "^GSPC" (demoEnv (flatSeries 0) true) (demoWorld None)
     = (Ok None, demoWorld None)
  /\ Bot.getMarketData (demoEnv (flatSeries 0) true) (demoWorld None)
     = (Ok None, demoWorld None).
Proof. vm_compute. repeat split. Qed.

(** ** The report *)

Lemma rsiStatus_cases (r : Q) :
  (70 <= r /\ rsiStatus (Some (Fin r)) = Overbought)
  \/ (r <= 30 /\ rsiStatus (Some (Fin r)) = Oversold)
  \/ (30 < r /\ r < 70 /\ rsiStatus (Some (Fin r)) = Neutral).
Proof.
  unfold rsiStatus. cbn [toNumber].
  destruct (ge (Fin r) (Fin 70)) eqn:Hge.
  - left. apply ge_Fin in Hge. now split.
  - assert (Hlt : r < 70).
    { apply Qnot_le_lt. intros H. apply ge_Fin in H. congruence. }
    destruct (le (Fin r) (Fin 30)) eqn:Hle.
    + right; left. apply le_Fin in Hle. now split.
    + right; right. repeat split; trivial.
      apply Qnot_le_lt. intros H. apply le_Fin in H. congruence.
Qed.

(** C9. A finite RSI value is labelled Overbought exactly from 70 up,
    Oversold exactly from 30 down and Neutral strictly in between, in the
    reports of both bots. *)
Theorem rsi_classification (r : Q) :
  let status := rsiStatus (Some (Fin r)) in
  (status = Overbought <-> 70 <= r)
  /\ (status = Oversold <-> r <= 30)
  /\ (status = Neutral <-> 30 < r /\ r < 70)
  /\ (forall data,
        (rsi5 data = Some (Fin r) -> rsi5Status (report data) = status)
        /\ (rsi14 data = Some (Fin r) -> rsi14Status (report data) = status))
  /\ (forall data,
        (Bot.rsi5 data = Some (Fin r) ->
         Bot.rsi5Status (Bot.report data) = status)
        /\ (Bot.rsi14 data = Some (Fin r) ->
            Bot.rsi14Status (Bot.report data) = status)).
Proof.
  cbn zeta.
  split; [|split; [|split; [|split]]].
  - destruct (rsiStatus_cases r) as [[H E] | [[H E] | (H1 & H2 & E)]];
      rewrite E; split; intros; (discriminate || lra || trivial).
  - destruct (rsiStatus_cases r) as [[H E] | [[H E] | (H1 & H2 & E)]];
      rewrite E; split; intros; (discriminate || lra || trivial).
  - destruct (rsiStatus_cases r) as [[H E] | [[H E] | (H1 & H2 & E)]];
      rewrite E; split; intros; (discriminate || lra || auto).
  - intros data. split; intros H; unfold report; cbn [rsi5Status rsi14Status];
      now rewrite H.
  - intros data. split; intros H; unfold Bot.report;
      cbn [Bot.rsi5Status Bot.rsi14Status]; now rewrite H.
Qed.

Lemma rsi_classification_witness :
  rsi5Status (report (demoData 110)) = Overbought
  /\ Bot.rsi5Status (Bot.report (snapshotOf (flatSeries 110))) = Overbought.
Proof.
  destruct (rsi_classification (100 + - 0))
    as (Hover & _ & _ & Hreport & Hbot).
  assert (E : rsiStatus (Some (Fin (100 + - 0))) = Overbought)
    by (apply Hover; vm_compute; discriminate).
  split.
  - rewrite <- E. apply (Hreport (demoData 110)). vm_compute. reflexivity.
  - rewrite <- E. apply (Hbot (snapshotOf (flatSeries 110))).
    vm_compute. reflexivity.
Defined.

(** C10. Data returned by [getAssetData] or [getMarketData] carries both
    RSI values, as finite numbers in [[0, 100]]; the reports built from it
    show them and never the [N/A] marker. *)
Theorem rsi_present e w :
  (forall symbol data w',
      getAssetData symbol e w = (Ok (Some data), w') ->
      exists r5 r14,
        rsi5 data = Some (Fin r5) /\ 0 <= r5 <= 100
        /\ rsi14 data = Some (Fin r14) /\ 0 <= r14 <= 100
        /\ rsi5Text (report data) = Fixed 1 (Fin r5)
        /\ rsi14Text (report data) = Fixed 1 (Fin r14))
  /\ (forall data w',
        Bot.getMarketData e w = (Ok (Some data), w') ->
        exists r5 r14,
          Bot.rsi5 data = Some (Fin r5) /\ 0 <= r5 <= 100
          /\ Bot.rsi14 data = Some (Fin r14) /\ 0 <= r14 <= 100
          /\ Bot.rsi5Text (Bot.report data) = Fixed 1 (Fin r5)
          /\ Bot.rsi14Text (Bot.report data) = Fixed 1 (Fin r14))
  /\ (forall symbol r w',
        stonksCommand symbol e w = (Ok (ReportReply r), w') ->
        rsi5Text r <> Literal "N/A" /\ rsi14Text r <> Literal "N/A").
Proof.
  split; [|split].
  - intros symbol data w' H.
    destruct (getAssetData_some_inv _ _ _ _ _ H)
      as (_ & quote & result & raw & _ & _ & _ & Hlen & ->).
    destruct (indicators_finite raw Hlen)
      as (p & m & r5 & r14 & _ & _ & _ & H5 & B5 & H14 & B14).
    exists r5, r14. unfold report, assetDataOf.
    cbn [rsi5 rsi14 rsi5Text rsi14Text]. rewrite H5, H14.
    repeat split; apply B5 || apply B14.
  - intros data w' H.
    destruct (getMarketData_some_inv _ _ _ _ H)
      as (_ & result & raw & _ & _ & Hlen & ->).
    destruct (indicators_finite raw Hlen)
      as (p & m & r5 & r14 & _ & _ & _ & H5 & B5 & H14 & B14).
    exists r5, r14. unfold Bot.report, snapshotOf.
    cbn [Bot.rsi5 Bot.rsi14 Bot.rsi5Text Bot.rsi14Text]. rewrite H5, H14.
    repeat split; apply B5 || apply B14.
  - intros symbol r w' H.
    unfold stonksCommand, tryCatch in H. unfold bind at 1 in H.
    destruct (getAssetData_cases symbol e w)
      as [(quote & result & raw & _ & _ & _ & Hlen & E) | [E | E]];
      rewrite E in H; try discriminate.
    injection H as <- <-.
    destruct (indicators_finite raw Hlen)
      as (p & m & r5 & r14 & _ & _ & _ & H5 & _ & H14 & _).
    unfold report, assetDataOf.
    cbn [rsi5 rsi14 rsi5Text rsi14Text]. rewrite H5, H14.
    split; discriminate.
Qed.

Lemma rsi_present_witness :
  exists r5 r14,
    rsi5 (demoData 110) = Some (Fin r5) /\ 0 <= r5 <= 100
    /\ rsi14 (demoData 110) = Some (Fin r14) /\ 0 <= r14 <= 100
    /\ rsi5Text (report (demoData 110)) = Fixed 1 (Fin r5)
    /\ rsi14Text (report (demoData 110)) = Fixed 1 (Fin r14).
Proof.
  destruct (rsi_present (demoEnv (flatSeries 110) true) (demoWorld None))
    as [Hasset _].
  apply (Hasset "^GSPC" (demoData 110) (demoWorld None)).
  vm_compute. reflexivity.
Defined.

(** * Further properties of the code *)

(** ** Failures of the provider *)

(** X1. [getAssetData] never throws.  When a call of the provider throws it
    logs one data error and returns [null]; otherwise it leaves the world
    as it is.  A chart that would throw is not asked for when the quote is
    not found. *)
Theorem getAssetData_errors symbol e w :
  (providerThrows e symbol ->
   getAssetData symbol e w = (Ok None, logged w (DataError symbol)))
  /\ (~ providerThrows e symbol ->
      exists r, getAssetData symbol e w = (Ok r, w))
  /\ (quoteOf e symbol = Returns None ->
      getAssetData symbol e w = (Ok None, w)).
Proof.
  unfold providerThrows, logged.
  split; [|split].
  - intros [Hq | [(q & Hq) Hc]]; unfold getAssetData; js_unfold.
    + now rewrite Hq.
    + now rewrite Hq, Hc.
  - intros Hno. unfold getAssetData. js_unfold.
    destruct (quoteOf e symbol) as [[q|]|] eqn:Hq;
      [| eauto | exfalso; apply Hno; now left].
    destruct (chartOf e symbol) as [result|] eqn:Hc;
      [| exfalso; apply Hno; right; split; [now exists q | reflexivity]].
    destruct (quotesOf result) as [raw|]; [|eauto].
    destruct (List.length raw <? 200)%nat; [eauto|].
    destruct (List.length (latestFirst raw) <? 200)%nat; eauto.
  - intros Hq. unfold getAssetData. js_unfold. now rewrite Hq.
Qed.

Lemma getAssetData_errors_witness :
  let e := mkEnv (fun _ => Returns (Some demoQuote)) (fun _ => Throws)
             (fun id => Returns (Some id)) true in
  getAssetData "AAPL" e (demoWorld None)
  = (Ok None, logged (demoWorld None) (DataError "AAPL")).
Proof.
  apply getAssetData_errors. right. split; [now exists demoQuote|reflexivity].
Defined.

(** X2. [getMarketData] never throws: a chart call that throws is logged
    and answered with [null]; otherwise the world is left as it is. *)
Theorem getMarketData_errors e w :
  (chartOf e "^GSPC" = Throws ->
   Bot.getMarketData e w = (Ok None, logged w MarketDataError))
  /\ (chartOf e "^GSPC" <> Throws ->
      exists r, Bot.getMarketData e w = (Ok r, w)).
Proof.
  unfold logged. split.
  - intros Hc. unfold Bot.getMarketData. js_unfold. now rewrite Hc.
  - intros Hc.
    destruct (chartOf e "^GSPC") as [result|] eqn:E; [|congruence].
    unfold Bot.getMarketData. js_unfold. rewrite E.
    destruct (quotesOf result) as [raw|]; [|eauto].
    destruct (List.length raw <? 200)%nat; [eauto|].
    destruct (List.length (latestFirst raw) <? 200)%nat; eauto.
Qed.

Lemma getMarketData_errors_witness :
  let e := mkEnv (fun _ => Throws) (fun _ => Throws)
             (fun id => Returns (Some id)) true in
  Bot.getMarketData e (demoWorld None)
  = (Ok None, logged (demoWorld None) MarketDataError).
Proof.
  apply getMarketData_errors. reflexivity.
Defined.

(** ** The on-demand query *)

(** X3. [!stonks <symbol>] always ends in a reply that is the report of the
    data or the no-data message, never the error reply; it leaves
    [marketData], the file and the messages of the alert channel as they
    were, and logs at most the data error of [getAssetData]. *)
Theorem stonks_query_frame symbol e w :
  exists reply w',
    stonksCommand symbol e w = (Ok reply, w')
    /\ marketData w' = marketData w
    /\ dataFile w' = dataFile w
    /\ outbox w' = outbox w
    /\ (w' = w \/ w' = logged w (DataError symbol))
    /\ reply <> ErrorReply
    /\ (forall data,
          getAssetData symbol e w = (Ok (Some data), w) ->
          reply = ReportReply (report data))
    /\ (reply = NoData <-> fst (getAssetData symbol e w) = Ok None).
Proof.
  unfold stonksCommand, tryCatch. unfold bind at 1.
  destruct (getAssetData_cases symbol e w)
    as [(quote & result & raw & _ & _ & _ & _ & E) | [E | E]]; rewrite E.
  - exists (ReportReply (report (assetDataOf symbol quote raw))), w.
    cbn. repeat split; try discriminate; auto.
    intros data [= <-]. reflexivity.
  - exists NoData, w. cbn. repeat split; try discriminate; auto.
  - exists NoData, (logged w (DataError symbol)).
    cbn. repeat split; try discriminate; auto.
Qed.

Lemma stonks_query_frame_witness :
  fst (stonksCommand "^GSPC" (demoEnv (flatSeries 110) true) (demoWorld None))
  = Ok (ReportReply (report (demoData 110))).
Proof.
  destruct (stonks_query_frame "^GSPC" (demoEnv (flatSeries 110) true)
              (demoWorld None))
    as (reply & w' & E & _ & _ & _ & _ & _ & Hreport & _).
  rewrite E. cbn [fst]. f_equal.
  apply Hreport. vm_compute. reflexivity.
Defined.

(** ** Outcomes of the scheduled job *)

Lemma scheduledJob_result e w :
  match alertChannel (marketData w) with
  | None => scheduledJob e w = (Ok tt, w)
  | Some id =>
      if String.eqb id EmptyString then scheduledJob e w = (Ok tt, w)
      else
        match channelOf e id with
        | Throws => scheduledJob e w = (Raised, w)
        | Returns None => scheduledJob e w = (Ok tt, w)
        | Returns (Some channel) => exists w', scheduledJob e w = (Ok tt, w')
        end
  end.
Proof.
  destruct (alertChannel (marketData w)) as [id|] eqn:Hid.
  2:{ unfold scheduledJob, bind, readMarketData. now rewrite Hid. }
  destruct (String.eqb id EmptyString) eqn:Hne.
  { unfold scheduledJob, bind, readMarketData. now rewrite Hid, Hne. }
  destruct (channelOf e id) as [[channel|]|] eqn:Hch.
  - destruct (getAssetData_cases "^GSPC" e w)
      as [(quote & result & raw & _ & _ & _ & _ & E) | [E | E]].
    + exists (worldAfter e w channel (assetDataOf "^GSPC" quote raw)).
      apply scheduledJob_valid with (id := id); trivial.
      now apply String.eqb_neq.
    + exists w. unfold scheduledJob. unfold bind at 1.
      unfold readMarketData at 1. rewrite Hid, Hne.
      unfold bind at 1. unfold await. rewrite Hch.
      unfold tryCatch. unfold bind at 1. now rewrite E.
    + eexists. unfold scheduledJob. unfold bind at 1.
      unfold readMarketData at 1. rewrite Hid, Hne.
      unfold bind at 1. unfold await. rewrite Hch.
      unfold tryCatch. unfold bind at 1. rewrite E. reflexivity.
  - unfold scheduledJob, bind, readMarketData, await.
    now rewrite Hid, Hne, Hch.
  - unfold scheduledJob, bind, readMarketData, await.
    now rewrite Hid, Hne, Hch.
Qed.

(** X4. The promise of the scheduled job rejects exactly when an alert
    channel is configured and fetching it throws, and then nothing was
    changed: failures of the provider and of the write are caught. *)
Theorem job_rejects_only_on_channel_fetch e w :
  (fst (scheduledJob e w) = Raised
   <-> exists id,
         alertChannel (marketData w) = Some id
         /\ id <> EmptyString
         /\ channelOf e id = Throws)
  /\ (fst (scheduledJob e w) = Raised -> snd (scheduledJob e w) = w).
Proof.
  pose proof (scheduledJob_result e w) as R.
  destruct (alertChannel (marketData w)) as [id|].
  2:{ rewrite R. cbn. split; [split|]; try discriminate.
      intros (id & H & _). discriminate. }
  destruct (String.eqb id EmptyString) eqn:Hne.
  { apply String.eqb_eq in Hne.
    rewrite R. cbn. split; [split|]; try discriminate.
    intros (id' & [= <-] & Hne' & _). now destruct Hne'. }
  apply String.eqb_neq in Hne.
  destruct (channelOf e id) as [[channel|]|] eqn:Hch.
  - destruct R as (w' & R). rewrite R. cbn. split; [split|]; try discriminate.
    intros (id' & [= <-] & _ & H). congruence.
  - rewrite R. cbn. split; [split|]; try discriminate.
    intros (id' & [= <-] & _ & H). congruence.
  - rewrite R. cbn. split; [split|]; trivial.
    intros _. now exists id.
Qed.

Lemma job_rejects_only_on_channel_fetch_witness :
  let e := mkEnv (fun _ => Throws) (fun _ => Throws) (fun _ => Throws) true in
  snd (scheduledJob e (demoWorld (Some below))) = demoWorld (Some below).
Proof.
  destruct (job_rejects_only_on_channel_fetch
              (mkEnv (fun _ => Throws) (fun _ => Throws) (fun _ => Throws) true)
              (demoWorld (Some below))) as [_ H].
  apply H. reflexivity.
Defined.

(** X5. With no alert channel configured (absent or the empty string), or
    when the platform does not find the channel, the job returns at once:
    the provider is not asked, nothing is logged, written or sent. *)
Theorem job_without_channel e w :
  alertChannel (marketData w) = None
  \/ alertChannel (marketData w) = Some EmptyString
  \/ (exists id,
        alertChannel (marketData w) = Some id
        /\ channelOf e id = Returns None) ->
  scheduledJob e w = (Ok tt, w).
Proof.
  intros H. pose proof (scheduledJob_result e w) as R.
  destruct H as [H | [H | (id & H & Hch)]]; rewrite H in R; cbn in R.
  - exact R.
  - exact R.
  - destruct (String.eqb id EmptyString); [exact R|].
    now rewrite Hch in R.
Qed.

Lemma job_without_channel_witness :
  let e := mkEnv (fun _ => Throws) (fun _ => Throws)
             (fun _ => Returns None) false in
  scheduledJob e (demoWorld (Some below)) = (Ok tt, demoWorld (Some below)).
Proof.
  apply job_without_channel. right; right. exists "alerts".
  split; reflexivity.
Defined.

(** ** Ticks in sequence *)

Lemma getAssetData_any_world symbol e w data w' :
  getAssetData symbol e w = (Ok (Some data), w') ->
  forall w2, getAssetData symbol e w2 = (Ok (Some data), w2).
Proof.
  intros H w2.
  destruct (getAssetData_some_inv _ _ _ _ _ H)
    as (_ & quote & result & raw & Hq & Hc & Hr & Hlen & ->).
  now apply getAssetData_valid with (result := result).
Qed.

Lemma Status_eqb_refl (s : Status) : Status_eqb s s = true.
Proof. now destruct s. Qed.

Lemma Status_eqb_eq (a b : Status) : Status_eqb a b = true <-> a = b.
Proof. destruct a, b; cbn; split; congruence. Qed.

(** X6. A second tick that sees the same data as the tick before it sends
    nothing more and leaves [marketData] as the first tick left it: one
    crossing gives one alert, however long the price stays on that side. *)
Theorem second_tick_silent e w id channel data :
  alertChannel (marketData w) = Some id ->
  id <> EmptyString ->
  channelOf e id = Returns (Some channel) ->
  getAssetData "^GSPC" e w = (Ok (Some data), w) ->
  let w1 := snd (scheduledJob e w) in
  let w2 := snd (scheduledJob e w1) in
  outbox w2 = outbox w1 /\ marketData w2 = marketData w1.
Proof.
  intros Hid Hne Hch Hdata.
  rewrite (scheduledJob_valid e w id channel data Hid Hne Hch Hdata).
  cbn [snd].
  rewrite (scheduledJob_valid e (worldAfter e w channel data) id channel data);
    trivial.
  - cbn [snd]. unfold worldAfter, alertsFor.
    cbn [outbox marketData lastStatus alertChannel].
    rewrite Status_eqb_refl. cbn [negb]. rewrite app_nil_r.
    split; reflexivity.
  - now apply getAssetData_any_world with (w := w) (w' := w).
Qed.

Lemma second_tick_silent_witness :
  let e := demoEnv (flatSeries 110) true in
  let w1 := snd (scheduledJob e (demoWorld (Some below))) in
  outbox (snd (scheduledJob e w1)) = outbox w1
  /\ marketData (snd (scheduledJob e w1)) = marketData w1.
Proof.
  apply (second_tick_silent (demoEnv (flatSeries 110) true)
           (demoWorld (Some below)) "alerts" "alerts" (demoData 110)).
  - reflexivity.
  - discriminate.
  - reflexivity.
  - vm_compute. reflexivity.
Defined.

(** X7. A tick sends at most one message and takes none back.  A message
    it sends goes to the channel fetched for the configured id, names a side
    that differs from the one recorded before and is the one recorded after,
    and is labelled bullish and golden cross exactly when that side is
    [above]. *)
Theorem at_most_one_alert e w :
  let w' := snd (scheduledJob e w) in
  outbox w' = outbox w
  \/ exists id channel m prior,
       outbox w' = outbox w ++ [(channel, m)]
       /\ alertChannel (marketData w) = Some id
       /\ channelOf e id = Returns (Some channel)
       /\ lastStatus (marketData w) = Some prior
       /\ prior <> closedSide m
       /\ lastStatus (marketData w') = Some (closedSide m)
       /\ (direction m = BullishCrossover <-> closedSide m = above)
       /\ (crossoverType m = GoldenCross <-> closedSide m = above).
Proof.
  cbn zeta.
  destruct (scheduledJob_cases e w)
    as [E | [(w1 & Hnone & E) | (id & ch & data & Hid & Hne & Hch & Hdata & E)]].
  - left. now rewrite E.
  - left. rewrite E. cbn [snd]. eapply getAssetData_frame. exact Hnone.
  - rewrite E. cbn [snd]. unfold worldAfter, alertsFor.
    cbn [outbox marketData lastStatus].
    destruct (lastStatus (marketData w)) as [prior|]; [|left; apply app_nil_r].
    destruct (Status_eqb prior _) eqn:Heq; cbn [negb];
      [left; apply app_nil_r|].
    right. eexists id, ch, _, prior.
    split; [reflexivity|]. repeat split; trivial.
    + cbn [closedSide alertMessage]. intros ->.
      now rewrite Status_eqb_refl in Heq.
    + cbn. destruct (statusOf _ _); congruence.
    + cbn. destruct (statusOf _ _); congruence.
    + cbn. destruct (statusOf _ _); congruence.
    + cbn. destruct (statusOf _ _); congruence.
Qed.

Lemma last_cons {A} (l : list A) (a d : A) : last (a :: l) d = last l a.
Proof.
  revert a d. induction l as [|b l IH]; intros a d; [reflexivity|].
  change (last (a :: b :: l) d) with (last (b :: l) d).
  now rewrite (IH b d), (IH b a).
Qed.

Lemma tick_step e w id channel side :
  alertChannel (marketData w) = Some id ->
  id <> EmptyString ->
  tickSees id channel e side ->
  let w' := snd (scheduledJob e w) in
  List.length (outbox w')
  = (List.length (outbox w) + flips (lastStatus (marketData w)) [side])%nat
  /\ marketData w' = mkMarketData (Some side) (Some id).
Proof.
  intros Hid Hne (Hch & quote & result & raw & Hq & Hc & Hr & Hlen & ->).
  rewrite latestFirst_length in Hlen.
  pose proof (getAssetData_valid "^GSPC" e w quote result raw Hq Hc Hr Hlen)
    as Hdata.
  cbn zeta. rewrite (scheduledJob_valid e w id channel _ Hid Hne Hch Hdata).
  cbn [snd]. unfold worldAfter, alertsFor.
  cbn [outbox marketData lastStatus alertChannel flips].
  rewrite Hid. split; [|reflexivity].
  rewrite length_app.
  destruct (lastStatus (marketData w)) as [l|]; [|reflexivity].
  destruct (Status_eqb l _); reflexivity.
Qed.

(** X8. Over any sequence of ticks that see data, the number of messages
    sent is the number of changes of side along the sequence, counted from
    the side recorded at the start (none counts as no change); the side
    recorded at the end is the last one seen and the channel is kept. *)
Theorem alerts_count_flips id channel :
  id <> EmptyString ->
  forall ticks sides w,
    alertChannel (marketData w) = Some id ->
    Forall2 (tickSees id channel) ticks sides ->
    let w' := runTicks ticks w in
    List.length (outbox w')
    = (List.length (outbox w) + flips (lastStatus (marketData w)) sides)%nat
    /\ lastStatus (marketData w')
       = last (map Some sides) (lastStatus (marketData w))
    /\ alertChannel (marketData w') = Some id.
Proof.
  intros Hne ticks sides w Hid Hall. revert w Hid.
  induction Hall as [|e side ticks sides Hsee Hall IH]; intros w Hid.
  - cbn. repeat split; trivial; lia.
  - cbn zeta. cbn [runTicks fold_left].
    destruct (tick_step e w id channel side Hid Hne Hsee) as [Hlen Hmd].
    cbn zeta in Hlen, Hmd.
    set (w1 := snd (scheduledJob e w)) in *.
    assert (Hid1 : alertChannel (marketData w1) = Some id) by now rewrite Hmd.
    destruct (IH w1 Hid1) as (Hlen' & Hlast & Hch).
    unfold runTicks in Hlen', Hlast, Hch. split; [|split].
    + rewrite Hlen', Hlen, Hmd. cbn [lastStatus flips]. lia.
    + rewrite Hlast, Hmd. cbn [lastStatus map]. now rewrite last_cons.
    + exact Hch.
Qed.

Lemma alerts_count_flips_witness :
  let ticks := [demoEnv (flatSeries 110) true; demoEnv (flatSeries 110) false;
                demoEnv (flatSeries 90) true] in
  let w' := runTicks ticks (demoWorld None) in
  List.length (outbox w') = 1%nat
  /\ lastStatus (marketData w') = Some below
  /\ alertChannel (marketData w') = Some "alerts".
Proof.
  apply (alerts_count_flips "alerts" "alerts" ltac:(discriminate)
           [demoEnv (flatSeries 110) true; demoEnv (flatSeries 110) false;
            demoEnv (flatSeries 90) true]
           [above; above; below] (demoWorld None) eq_refl).
  assert (Hsee : forall latest write side,
             (200 <=? List.length (latestFirst (flatSeries latest)))%nat = true ->
             side = statusOf (currentPrice (demoData latest))
                      (ma200 (demoData latest)) ->
             tickSees "alerts" "alerts" (demoEnv (flatSeries latest) write) side).
  { intros latest write side Hlen Hside. split; [reflexivity|].
    exists demoQuote, (Some (mkChartResult (Some (flatSeries latest)))),
      (flatSeries latest).
    repeat split; trivial. now apply Nat.leb_le. }
  repeat apply Forall2_cons; try apply Forall2_nil;
    apply Hsee; vm_compute; reflexivity.
Defined.

(** ** Memory and file *)

Lemma stonksCommand_world symbol e w :
  exists reply,
    stonksCommand symbol e w = (Ok reply, w)
    \/ stonksCommand symbol e w = (Ok reply, logged w (DataError symbol)).
Proof.
  unfold stonksCommand, tryCatch. unfold bind at 1 3.
  destruct (getAssetData_cases symbol e w)
    as [(quote & result & raw & _ & _ & _ & _ & E) | [E | E]]; rewrite E;
    eexists; cbn; eauto.
Qed.

(** X9. As long as writes succeed, memory and file agree after every
    handler: if a restart would read back the record in memory before the
    scheduled job, a [!stonks] query or a [!setalertchannel] command, it
    would do so after it as well; a restart itself starts in agreement. *)
Theorem sync_kept e w :
  inSync (restart w)
  /\ (writeSucceeds e = true ->
      inSync w ->
      inSync (snd (scheduledJob e w))
      /\ (forall symbol, inSync (snd (stonksCommand symbol e w)))
      /\ (forall admin id, inSync (snd (setAlertChannelCommand admin id e w)))).
Proof.
  split; [reflexivity|]. intros Hw Hsync. unfold inSync in *.
  split; [|split].
  - destruct (scheduledJob_cases e w)
      as [E | [(w1 & Hnone & E) | (id & ch & data & _ & _ & _ & _ & E)]].
    + now rewrite E.
    + rewrite E. cbn [snd].
      destruct (getAssetData_frame _ _ _ _ _ Hnone) as (Hmd & Hfile & _).
      now rewrite Hmd, Hfile.
    + rewrite E. cbn [snd]. unfold worldAfter. cbn [marketData dataFile].
      rewrite Hw. reflexivity.
  - intros symbol.
    destruct (stonksCommand_world symbol e w) as (reply & [E | E]);
      rewrite E; exact Hsync.
  - intros [|] id; [|exact Hsync].
    unfold setAlertChannelCommand. cbn [negb]. js_unfold.
    unfold setAlertChannel, updWorld. rewrite Hw. reflexivity.
Qed.

Lemma sync_kept_witness :
  inSync (snd (scheduledJob (demoEnv (flatSeries 110) true)
                 (demoWorld (Some below)))).
Proof.
  destruct (sync_kept (demoEnv (flatSeries 110) true) (demoWorld (Some below)))
    as [_ H].
  destruct H as [Hjob _]; [reflexivity | reflexivity | exact Hjob].
Defined.

(** ** Registration of the alert channel *)

(** X10. [!setalertchannel] without the administrator permission changes
    nothing.  With it, the channel id is set in memory and the recorded side
    is kept; the file then holds the whole record when the write succeeds,
    and when the write fails the handler throws with the file unchanged and
    the id already set in memory. *)
Theorem registration_outcomes admin id e w :
  let w' := snd (setAlertChannelCommand admin id e w) in
  (admin = false ->
   setAlertChannelCommand admin id e w = (Ok PermissionDenied, w))
  /\ (admin = true ->
      marketData w' = mkMarketData (lastStatus (marketData w)) (Some id)
      /\ outbox w' = outbox w
      /\ console w' = console w
      /\ (writeSucceeds e = true ->
          fst (setAlertChannelCommand admin id e w) = Ok ChannelRegistered
          /\ dataFile w' = Some (marketData w'))
      /\ (writeSucceeds e = false ->
          fst (setAlertChannelCommand admin id e w) = Raised
          /\ dataFile w' = dataFile w)).
Proof.
  cbn zeta. split; intros ->; [reflexivity|].
  unfold setAlertChannelCommand. cbn [negb]. js_unfold.
  unfold setAlertChannel, updWorld.
  destruct (writeSucceeds e); cbn; repeat split; intros; congruence.
Qed.

Lemma registration_outcomes_witness :
  marketData (snd (setAlertChannelCommand true "general"
                     (demoEnv [] true) (demoWorld (Some above))))
  = mkMarketData (Some above) (Some "general").
Proof.
  destruct (registration_outcomes true "general" (demoEnv [] true)
              (demoWorld (Some above))) as [_ H].
  destruct H as (Hmd & _); [reflexivity | exact Hmd].
Defined.

(** X11. After a registration the next tick that sees data alerts the newly
    registered channel exactly when the side differs from the one recorded
    before the registration: registering does not reset the recorded side,
    whether or not its write succeeded. *)
Theorem registration_then_tick id channel e1 e2 w data :
  id <> EmptyString ->
  channelOf e2 id = Returns (Some channel) ->
  getAssetData "^GSPC" e2 w = (Ok (Some data), w) ->
  let side := statusOf (currentPrice data) (ma200 data) in
  let w1 := snd (setAlertChannelCommand true id e1 w) in
  let w2 := snd (scheduledJob e2 w1) in
  (forall prior,
      lastStatus (marketData w) = Some prior -> prior <> side ->
      outbox w2 = outbox w ++ [(channel, alertMessage side data)])
  /\ (lastStatus (marketData w) = Some side \/ lastStatus (marketData w) = None ->
      outbox w2 = outbox w)
  /\ marketData w2 = mkMarketData (Some side) (Some id).
Proof.
  intros Hne Hch Hdata. cbn zeta.
  set (w1 := snd (setAlertChannelCommand true id e1 w)).
  assert (Hw1 : marketData w1 = mkMarketData (lastStatus (marketData w)) (Some id)
                /\ outbox w1 = outbox w).
  { unfold w1, setAlertChannelCommand. cbn [negb]. js_unfold.
    unfold setAlertChannel, updWorld. destruct (writeSucceeds e1); now cbn. }
  destruct Hw1 as [Hmd Hout].
  rewrite (scheduledJob_valid e2 w1 id channel data); trivial.
  - cbn [snd]. unfold worldAfter, alertsFor. cbn [outbox marketData].
    rewrite Hmd, Hout. cbn [lastStatus alertChannel].
    split; [|split; [|reflexivity]].
    + intros prior -> Hdiff.
      destruct (Status_eqb prior _) eqn:Heq; [|reflexivity].
      apply Status_eqb_eq in Heq. contradiction.
    + intros [-> | ->]; [rewrite Status_eqb_refl|]; apply app_nil_r.
  - now rewrite Hmd.
  - now apply getAssetData_any_world with (w := w) (w' := w).
Qed.

Lemma registration_then_tick_witness :
  let w1 := snd (setAlertChannelCommand true "general" (demoEnv [] false)
                   (demoWorld (Some below))) in
  outbox (snd (scheduledJob (demoEnv (flatSeries 110) true) w1))
  = [("general", alertMessage above (demoData 110))].
Proof.
  destruct (registration_then_tick "general" "general" (demoEnv [] false)
              (demoEnv (flatSeries 110) true) (demoWorld (Some below))
              (demoData 110)) as (Halert & _).
  - discriminate.
  - reflexivity.
  - vm_compute. reflexivity.
  - apply (Halert below); [reflexivity|]. vm_compute. discriminate.
Defined.

(** ** Gaps in the series *)

(** X13. Entries that the pre-filter drops do not matter: two series with
    the same kept entries give the same answer, whatever entries without a
    usable close lie between or around them. *)
Theorem gaps_ignored symbol e e' w quote result result' raw raw' :
  quoteOf e symbol = Returns (Some quote) ->
  quoteOf e' symbol = Returns (Some quote) ->
  chartOf e symbol = Returns result ->
  chartOf e' symbol = Returns result' ->
  quotesOf result = Some raw ->
  quotesOf result' = Some raw' ->
  filter closeTruthy raw = filter closeTruthy raw' ->
  getAssetData symbol e w = getAssetData symbol e' w.
Proof.
  intros Hq Hq' Hc Hc' Hr Hr' Hsame.
  assert (Hlf : latestFirst raw = latestFirst raw')
    by (unfold latestFirst; now rewrite Hsame).
  assert (Hk : List.length (keptCloses raw) = List.length (keptCloses raw'))
    by (now rewrite !keptCloses_length, Hsame).
  destruct (Nat.lt_ge_cases (List.length (keptCloses raw)) 200) as [Hlt | Hge].
  - rewrite (getAssetData_invalid symbol e w quote result raw); trivial.
    rewrite (getAssetData_invalid symbol e' w quote result' raw'); trivial.
    lia.
  - rewrite (getAssetData_valid symbol e w quote result raw); trivial.
    rewrite (getAssetData_valid symbol e' w quote result' raw'); [|trivial..].
    + unfold assetDataOf. now rewrite Hlf.
    + lia.
Qed.

Lemma gaps_ignored_witness :
  getAssetData "^GSPC" (demoEnv (flatSeries 110) true) (demoWorld None)
  = getAssetData "^GSPC"
      (demoEnv (mkQuote 0 None :: flatSeries 110 ++ [mkQuote 200 (Some 0)]) true)
      (demoWorld None).
Proof.
  apply (gaps_ignored "^GSPC"
           (demoEnv (flatSeries 110) true)
           (demoEnv (mkQuote 0 None :: flatSeries 110 ++ [mkQuote 200 (Some 0)])
              true)
           (demoWorld None) demoQuote
           (Some (mkChartResult (Some (flatSeries 110))))
           (Some (mkChartResult
                    (Some (mkQuote 0 None
                             :: flatSeries 110 ++ [mkQuote 200 (Some 0)]))))
           (flatSeries 110)
           (mkQuote 0 None :: flatSeries 110 ++ [mkQuote 200 (Some 0)])
           eq_refl eq_refl eq_refl eq_refl eq_refl eq_refl).
  vm_compute. reflexivity.
Defined.

(** ** More on [calculateRSI] *)

Lemma add_NaN_r (x : num) : add x NaN = NaN.
Proof. now destruct x. Qed.

Lemma div_NaN_r (x : num) : div x NaN = NaN.
Proof. now destruct x. Qed.

Lemma rsiLoop_NaN_losses (closes : list num) :
  forall n i g, snd (rsiLoop closes n i g NaN) = NaN.
Proof.
  induction n as [|n IH]; intros i g; [reflexivity|].
  cbn [rsiLoop]. destruct (gt _ _); apply IH.
Qed.

Lemma rsiLoop_runs_out (closes : list num) :
  forall n i g l,
    (1 <= n)%nat -> (List.length closes <= i + n - 1)%nat ->
    snd (rsiLoop closes n i g l) = NaN.
Proof.
  induction n as [|n IH]; intros i g l Hn Hlen; [lia|].
  cbn [rsiLoop].
  destruct (Nat.lt_ge_cases i (List.length closes)) as [Hin | Hout].
  - destruct (gt _ _); apply IH; lia.
  - assert (E : at_index closes i = NaN)
      by (unfold at_index; now apply nth_overflow).
    rewrite E. unfold sub. cbn [neg]. rewrite add_NaN_r.
    cbn [gt abs]. rewrite add_NaN_r. apply rsiLoop_NaN_losses.
Qed.

(** X14. When the array holds fewer than [period + 1] closes (period at
    least 1) the loop reads past its end and [calculateRSI] returns [NaN],
    whatever the closes are; hence the length tests of its callers. *)
Theorem rsi_short_series (closes : list num) (period : nat) :
  (1 <= period)%nat ->
  (List.length closes <= period)%nat ->
  calculateRSI closes period = NaN.
Proof.
  intros HP Hlen. unfold calculateRSI.
  pose proof (rsiLoop_runs_out closes period 1 (Fin 0) (Fin 0) HP) as H.
  destruct (rsiLoop closes period 1 (Fin 0) (Fin 0)) as [gains losses].
  cbn [snd] in H. rewrite H by lia.
  cbn [div strictEq]. rewrite div_NaN_r. reflexivity.
Qed.

Lemma rsi_short_series_witness :
  calculateRSI (map Fin [3; 1; 2; 5; 1]) 5 = NaN.
Proof. apply rsi_short_series; simpl; lia. Defined.

(** ** The query of [bot.js] *)

(** X17. [!stonks] of [bot.js] always ends in the report of the data or in
    the could-not-fetch message, never in the error reply; it changes
    nothing but the console, where at most the market data error of
    [getMarketData] is logged. *)
Theorem bot_query_frame e w :
  exists reply w',
    botStonksCommand e w = (Ok reply, w')
    /\ (w' = w \/ w' = logged w MarketDataError)
    /\ reply <> BotError
    /\ (forall data,
          Bot.getMarketData e w = (Ok (Some data), w) ->
          reply = BotReport (Bot.report data))
    /\ (reply = CouldNotFetch <-> fst (Bot.getMarketData e w) = Ok None).
Proof.
  unfold botStonksCommand, tryCatch. unfold bind at 1.
  destruct (getMarketData_cases e w)
    as [(result & raw & _ & _ & _ & E) | [E | E]]; rewrite E.
  - exists (BotReport (Bot.report (snapshotOf raw))), w.
    cbn. repeat split; try discriminate; auto.
    intros data [= <-]. reflexivity.
  - exists CouldNotFetch, w. cbn. repeat split; try discriminate; auto.
  - exists CouldNotFetch, (logged w MarketDataError).
    cbn. repeat split; try discriminate; auto.
Qed.

Lemma bot_query_frame_witness :
  fst (botStonksCommand (demoEnv (flatSeries 110) true) (demoWorld None))
  = Ok (BotReport (Bot.report (snapshotOf (flatSeries 110)))).
Proof.
  destruct (bot_query_frame (demoEnv (flatSeries 110) true) (demoWorld None))
    as (reply & w' & E & _ & _ & Hreport & _).
  rewrite E. cbn [fst]. f_equal.
  apply Hreport. vm_compute. reflexivity.
Defined.

(** ** Edge cases of the report *)

(** X18. Were an RSI value absent, both reports would show [N/A] for it
    and label it Oversold, because [null] compares as the number 0. *)
Theorem absent_rsi_label :
  (forall data,
      (rsi5 data = None ->
       rsi5Text (report data) = Literal "N/A"
       /\ rsi5Status (report data) = Oversold)
      /\ (rsi14 data = None ->
          rsi14Text (report data) = Literal "N/A"
          /\ rsi14Status (report data) = Oversold))
  /\ (forall data,
        (Bot.rsi5 data = None ->
         Bot.rsi5Text (Bot.report data) = Literal "N/A"
         /\ Bot.rsi5Status (Bot.report data) = Oversold)
        /\ (Bot.rsi14 data = None ->
            Bot.rsi14Text (Bot.report data) = Literal "N/A"
            /\ Bot.rsi14Status (Bot.report data) = Oversold)).
Proof.
  split; intros data; split; intros H;
    unfold report, Bot.report;
    cbn [rsi5Text rsi5Status rsi14Text rsi14Status
         Bot.rsi5Text Bot.rsi5Status Bot.rsi14Text Bot.rsi14Status];
    rewrite H; split; reflexivity.
Qed.

Lemma absent_rsi_label_witness :
  let data := mkAssetData "Apple Inc." "AAPL" (Fin 10) (Fin 9) (Fin 8) None
                (Some (Fin 50)) in
  rsi5Text (report data) = Literal "N/A"
  /\ rsi5Status (report data) = Oversold.
Proof.
  destruct absent_rsi_label as [H _].
  apply (H (mkAssetData "Apple Inc." "AAPL" (Fin 10) (Fin 9) (Fin 8) None
              (Some (Fin 50)))).
  reflexivity.
Defined.

(** X19. The data carries the symbol it was asked for, and its display
    name is the long name of the quote when that is not empty, else the
    short name when that is not empty, else the symbol; so it is never empty
    for a symbol that is not. *)
Theorem display_name sym e w data w' :
  getAssetData sym e w = (Ok (Some data), w') ->
  exists quote,
    quoteOf e sym = Returns (Some quote)
    /\ symbol data = sym
    /\ (forall n, longName quote = Some n -> n <> EmptyString -> name data = n)
    /\ (longName quote = None \/ longName quote = Some EmptyString ->
        forall n, shortName quote = Some n -> n <> EmptyString ->
                  name data = n)
    /\ (longName quote = None \/ longName quote = Some EmptyString ->
        shortName quote = None \/ shortName quote = Some EmptyString ->
        name data = sym)
    /\ (sym <> EmptyString -> name data <> EmptyString).
Proof.
  intros H.
  destruct (getAssetData_some_inv _ _ _ _ _ H)
    as (_ & quote & result & raw & Hq & _ & _ & _ & ->).
  exists quote. split; [exact Hq|]. split; [reflexivity|].
  unfold assetDataOf. cbn [name]. unfold orElse.
  destruct (longName quote) as [ln|]; destruct (shortName quote) as [sn|];
    repeat split;
    repeat match goal with
      | |- context [String.eqb ?x EmptyString] =>
          destruct (String.eqb_spec x EmptyString)
      end;
    intros; subst;
    repeat match goal with
      | H : _ \/ _ |- _ => destruct H
      | H : Some _ = Some _ |- _ => injection H as H; subst
      end;
    try congruence.
Qed.

Lemma display_name_witness :
  name (demoData 110) = "S&P 500".
Proof.
  destruct (display_name "^GSPC" (demoEnv (flatSeries 110) true)
              (demoWorld None) (demoData 110) (demoWorld None))
    as (quote & Hq & _ & Hlong & _).
  - vm_compute. reflexivity.
  - injection Hq as <-. apply Hlong; [reflexivity | discriminate].
Defined.

(** * The numbers the program computes, in binary64 *)

Module Binary64Facts.

Import PrimFloat.
Import Binary64.
Local Open Scope float_scope.

(** ** [calculateRSI] *)






(** ** The pre-filter and the averages *)

Lemma truthy_usable (x : float) : truthy x = usable x.
Proof. unfold truthy, usable. now destruct (eqb x 0), (is_nan x). Qed.

Lemma latestFirst_usable (raw : list Quote) :
  latestFirst raw = rev (usableCloses raw).
Proof.
  unfold latestFirst, usableCloses. f_equal.
  induction raw as [|[d [x|]] raw IH];
    cbn [filter map flat_map closeTruthy closeValue close];
    [reflexivity | | exact IH].
  rewrite truthy_usable.
  destruct (usable x); cbn [map app closeValue close]; now rewrite IH.
Qed.

Lemma usable_all_present (raw : list Quote) :
  (forall x, In x (presentCloses raw) -> usable x = true) ->
  usableCloses raw = presentCloses raw.
Proof.
  unfold usableCloses, presentCloses.
  induction raw as [|[d [x|]] raw IH]; cbn [flat_map close]; intros H.
  - reflexivity.
  - rewrite (H x) by (now left). cbn [app]. f_equal.
    apply IH. intros y Hy. apply H. now right.
  - apply IH, H.
Qed.

Lemma usable_le_present (raw : list Quote) :
  (List.length (usableCloses raw) <= List.length (presentCloses raw))%nat.
Proof.
  unfold usableCloses, presentCloses.
  induction raw as [|[d [x|]] raw IH]; cbn [flat_map close];
    [lia | | exact IH].
  destruct (usable x); rewrite !length_app; cbn [List.length]; lia.
Qed.

Lemma usable_le_raw (raw : list Quote) :
  (List.length (usableCloses raw) <= List.length raw)%nat.
Proof.
  unfold usableCloses.
  induction raw as [|[d [x|]] raw IH]; cbn [flat_map close List.length app];
    [lia | | lia].
  destruct (usable x); rewrite ?length_app; cbn [List.length app]; lia.
Qed.

Lemma slice_mean (l : list float) (n : nat) :
  (n <= List.length l)%nat ->
  div (sum (slice0 n (rev l))) (ofNat n) = floatMean (mostRecent n l).
Proof.
  intros H. unfold floatMean, mostRecent, sum, slice0.
  now rewrite length_firstn, length_rev, Nat.min_l.
Qed.

Lemma first_of_reversed (l : list float) : at_index (rev l) 0 = last l nan.
Proof.
  unfold at_index.
  destruct l as [|a l] using rev_ind; [reflexivity|].
  now rewrite rev_app_distr, last_last.
Qed.

Lemma chartToAssetData_some name symbol raw :
  (200 <= List.length (usableCloses raw))%nat ->
  chartToAssetData name symbol (Some raw)
  = Some (mkAssetData name symbol
            (last (usableCloses raw) nan)
            (floatMean (mostRecent 50 (usableCloses raw)))
            (floatMean (mostRecent 200 (usableCloses raw)))
            (rsiIfEnough (rev (usableCloses raw)) 6 5)
            (rsiIfEnough (rev (usableCloses raw)) 15 14)).
Proof.
  intros H. pose proof (usable_le_raw raw) as Hraw.
  unfold chartToAssetData.
  destruct (Nat.ltb_spec (List.length raw) 200) as [|_]; [lia|].
  rewrite latestFirst_usable, length_rev.
  destruct (Nat.ltb_spec (List.length (usableCloses raw)) 200) as [|_]; [lia|].
  rewrite first_of_reversed.
  change 50 with (ofNat 50). change 200 with (ofNat 200).
  rewrite !slice_mean by lia. reflexivity.
Qed.

Lemma chartToAssetData_none name symbol raw :
  (List.length (usableCloses raw) < 200)%nat ->
  chartToAssetData name symbol (Some raw) = None.
Proof.
  intros H. unfold chartToAssetData.
  destruct (List.length raw <? 200)%nat; [reflexivity|].
  rewrite latestFirst_usable, length_rev.
  destruct (Nat.ltb_spec (List.length (usableCloses raw)) 200) as [_|]; [|lia].
  reflexivity.
Qed.

Lemma chartToSnapshot_some raw :
  (200 <= List.length (usableCloses raw))%nat ->
  chartToSnapshot (Some raw)
  = Some (mkSnapshot
            (last (usableCloses raw) nan)
            (floatMean (mostRecent 200 (usableCloses raw)))
            (rsiIfEnough (rev (usableCloses raw)) 6 5)
            (rsiIfEnough (rev (usableCloses raw)) 15 14)).
Proof.
  intros H. pose proof (usable_le_raw raw) as Hraw.
  unfold chartToSnapshot.
  destruct (Nat.ltb_spec (List.length raw) 200) as [|_]; [lia|].
  rewrite latestFirst_usable, length_rev.
  destruct (Nat.ltb_spec (List.length (usableCloses raw)) 200) as [|_]; [lia|].
  rewrite first_of_reversed.
  change 200 with (ofNat 200).
  rewrite !slice_mean by lia. reflexivity.
Qed.

Lemma chartToSnapshot_none raw :
  (List.length (usableCloses raw) < 200)%nat ->
  chartToSnapshot (Some raw) = None.
Proof.
  intros H. unfold chartToSnapshot.
  destruct (List.length raw <? 200)%nat; [reflexivity|].
  rewrite latestFirst_usable, length_rev.
  destruct (Nat.ltb_spec (List.length (usableCloses raw)) 200) as [_|]; [|lia].
  reflexivity.
Qed.

(** Counterexample to C4, in binary64: for 200 closes of 1.1 the data is
    returned, but its [ma200] is 1.0999999999999963 and not their
    arithmetic mean 1.1. *)
Lemma ma200_not_exact_mean : ~ thresholdAsSpecified (constantSeries 200 onePointOne).
Proof.
  intros [H _].
  destruct H as (data & m & mu & Hdata & Hm & Hmu & Heq);
    [vm_compute; lia|].
  vm_compute in Hdata. injection Hdata as <-.
  vm_compute in Hm. injection Hm as <-.
  vm_compute in Hmu. injection Hmu as <-.
  vm_compute in Heq. discriminate Heq.
Qed.

(** On that flat series the price is classified above its own average. *)
Example flat_series_above_its_average :
  exists data,
    chartToAssetData EmptyString EmptyString
      (Some (constantSeries 200 onePointOne)) = Some data
    /\ currentPrice data = onePointOne
    /\ ltb (ma200 data) (currentPrice data) = true.
Proof. eexists. split; [vm_compute; reflexivity|]. split; reflexivity. Qed.

(** With a zero among 200 present closes the answer is [null] (see C8). *)
Example zero_close_not_counted :
  List.length (presentCloses (flatSeries 0)) = 200%nat
  /\ chartToAssetData EmptyString EmptyString (Some (flatSeries 0)) = None
  /\ chartToSnapshot (Some (flatSeries 0)) = None.
Proof. vm_compute. repeat split. Qed.

(** C4, amended.  With fewer than 200 closes present both bots answer
    [null].  When every close present is a number other than zero and at
    least 200 are present, the data is returned and its [ma200] is the sum,
    taken from the most recent close backwards with binary64 additions, of
    the 200 most recent closes present, divided by 200. *)
Theorem ma200_is_float_mean name symbol raw :
  ((List.length (presentCloses raw) < 200)%nat ->
   chartToAssetData name symbol (Some raw) = None
   /\ chartToSnapshot (Some raw) = None)
  /\ ((forall x, In x (presentCloses raw) -> usable x = true) ->
      (200 <= List.length (presentCloses raw))%nat ->
      exists data snap,
        chartToAssetData name symbol (Some raw) = Some data
        /\ ma200 data = floatMean (mostRecent 200 (presentCloses raw))
        /\ chartToSnapshot (Some raw) = Some snap
        /\ snapMa200 snap = floatMean (mostRecent 200 (presentCloses raw))).
Proof.
  split.
  - intros H. pose proof (usable_le_present raw).
    split; [apply chartToAssetData_none | apply chartToSnapshot_none]; lia.
  - intros Hall Hlen.
    rewrite <- (usable_all_present raw Hall) in *.
    rewrite (chartToAssetData_some name symbol raw Hlen).
    rewrite (chartToSnapshot_some raw Hlen).
    eexists. eexists. repeat split.
Qed.

Lemma ma200_is_float_mean_witness :
  exists data snap,
    chartToAssetData "S&P 500" "^GSPC" (Some (constantSeries 200 onePointOne))
    = Some data
    /\ ma200 data
       = floatMean (mostRecent 200 (presentCloses (constantSeries 200 onePointOne)))
    /\ chartToSnapshot (Some (constantSeries 200 onePointOne)) = Some snap
    /\ snapMa200 snap
       = floatMean (mostRecent 200 (presentCloses (constantSeries 200 onePointOne))).
Proof.
  destruct (ma200_is_float_mean "S&P 500" "^GSPC"
              (constantSeries 200 onePointOne)) as [_ H].
  apply H.
  - apply forallb_forall. vm_compute. reflexivity.
  - vm_compute. lia.
Defined.

(** X12. In the data returned, for any series: at least 200 closes are
    usable (present, not zero), the current price is the last usable close
    in the order of the provider (trailing entries without a usable close
    are passed over), and [ma50] and [ma200] are the binary64 sums of the 50
    and 200 most recent usable closes, taken from the most recent backwards,
    divided by 50 and 200. *)
Theorem price_and_averages raw :
  (forall name symbol data,
      chartToAssetData name symbol (Some raw) = Some data ->
      (200 <= List.length (usableCloses raw))%nat
      /\ currentPrice data = last (usableCloses raw) nan
      /\ ma50 data = floatMean (mostRecent 50 (usableCloses raw))
      /\ ma200 data = floatMean (mostRecent 200 (usableCloses raw)))
  /\ (forall snap,
        chartToSnapshot (Some raw) = Some snap ->
        (200 <= List.length (usableCloses raw))%nat
        /\ snapPrice snap = last (usableCloses raw) nan
        /\ snapMa200 snap = floatMean (mostRecent 200 (usableCloses raw))).
Proof.
  split.
  - intros name symbol data H.
    destruct (Nat.lt_ge_cases (List.length (usableCloses raw)) 200) as [Hlt|Hge].
    + rewrite (chartToAssetData_none name symbol raw Hlt) in H. discriminate.
    + rewrite (chartToAssetData_some name symbol raw Hge) in H.
      injection H as <-. repeat split. exact Hge.
  - intros snap H.
    destruct (Nat.lt_ge_cases (List.length (usableCloses raw)) 200) as [Hlt|Hge].
    + rewrite (chartToSnapshot_none raw Hlt) in H. discriminate.
    + rewrite (chartToSnapshot_some raw Hge) in H.
      injection H as <-. repeat split. exact Hge.
Qed.

Lemma price_and_averages_witness :
  exists data,
    chartToAssetData "S&P 500" "^GSPC"
      (Some (flatSeries 110 ++ [mkQuote 200 None; mkQuote 201 (Some 0)]))
    = Some data
    /\ currentPrice data = 110.
Proof.
  destruct (price_and_averages
              (flatSeries 110 ++ [mkQuote 200 None; mkQuote 201 (Some 0)]))
    as [H _].
  destruct (chartToAssetData "S&P 500" "^GSPC"
              (Some (flatSeries 110 ++ [mkQuote 200 None; mkQuote 201 (Some 0)])))
    as [data|] eqn:E; [|vm_compute in E; discriminate E].
  exists data. split; [reflexivity|].
  destruct (H "S&P 500" "^GSPC" data E) as (_ & Hprice & _).
  rewrite Hprice. vm_compute. reflexivity.
Defined.

End Binary64Facts.
